(** * BattleMetrics cog: channel names reconciled with live server state

    A shallow embedding of [battlemetrics.py] (the [BattleMetrics] cog):
    the fetch of one server from the monitoring API, the computation of a
    channel name from the guild's template, and the three places that
    apply it: the background pass [_update_all_channels] driven by
    [_update_loop], the [refresh] command and the [add] command; then the
    commands that change or show the configuration ([settoken],
    [setinterval], [setcategory], [setformat], [remove], [list],
    [search]).

    Conventions of the embedding.
    - Python values that come from JSON (API payloads, persisted
      configuration) are [pyval]; JSON numbers are integers, as the
      player counts of the API are.
    - A Python [str] is a [string]; one [ascii] stands for one character,
      so [s[:100]] keeps the first 100 of them.
    - An exception is a [Raise] result; the coroutines of the cog are
      state-passing functions over the channel names held by Discord,
      and they return the trace of their outward calls.
    - What the runtime decides by tables of its own is a parameter: the
      rendering of extended format fields ([ext]) and the case mapping of
      [str.title] ([str_title]).
    - Task cancellation ([asyncio.CancelledError]) is outside the model. *)

From Stdlib Require Import ZArith String Ascii List Bool Lia.
From stdpp Require Import base decidable option list gmap strings pretty.

Local Open Scope string_scope.
Local Open Scope list_scope.
Set Warnings "-register-all".

(** ** Python values *)

Module Py.

Inductive pyval : Type :=
| PNone
| PBool (b : bool)
| PInt (z : Z)
| PStr (s : string)
| PList (l : list pyval)
| PDict (d : list (string * pyval)).

(** The exception classes the cog can meet. [OtherError] stands for any
    further class that is an [Exception] and not a
    [discord.HTTPException]. *)
Inductive exn : Type :=
| KeyError (key : string)
| IndexError
| ValueError
| AttributeError
| TypeError
| HTTPException
| OtherError.

Inductive result (A : Type) : Type :=
| Ok (a : A)
| Raise (e : exn).
Arguments Ok {A} a.
Arguments Raise {A} e.

Definition is_ok {A} (r : result A) : bool :=
  match r with Ok _ => true | Raise _ => false end.

(** [bool(v)]: what [if not v] tests. *)
Definition truthy (v : pyval) : bool :=
  match v with
  | PNone => false
  | PBool b => b
  | PInt z => negb (Z.eqb z 0)
  | PStr s => negb (String.eqb s "")
  | PList l => match l with [] => false | _ => true end
  | PDict d => match d with [] => false | _ => true end
  end.

(** [v == "text"]: only a [str] equals a [str]. *)
Definition eq_str (v : pyval) (t : string) : bool :=
  match v with
  | PStr s => String.eqb s t
  | _ => false
  end.

(** Lookup in a [dict] with string keys (keys are unique in a dict). *)
Fixpoint dict_lookup (k : string) (d : list (string * pyval)) : option pyval :=
  match d with
  | [] => None
  | (k', v) :: d' => if String.eqb k k' then Some v else dict_lookup k d'
  end.

(** [d.get(k, default)] on a dict. *)
Definition dict_get (d : list (string * pyval)) (k : string) (default : pyval) : pyval :=
  match dict_lookup k d with
  | Some v => v
  | None => default
  end.

(** [d[k] = v]: an existing key keeps its place. *)
Fixpoint dict_set (k : string) (v : pyval) (d : list (string * pyval))
  : list (string * pyval) :=
  match d with
  | [] => [(k, v)]
  | (k', v') :: d' =>
      if String.eqb k k' then (k, v) :: d' else (k', v') :: dict_set k v d'
  end.

(** [v.get(k, default)] on any value: only a dict has [get]. *)
Definition get (v : pyval) (k : string) (default : pyval) : result pyval :=
  match v with
  | PDict d => Ok (dict_get d k default)
  | _ => Raise AttributeError
  end.

(** [s[:n]] *)
Fixpoint slice_to (n : nat) (s : string) : string :=
  match n, s with
  | O, _ => ""
  | S n', String c s' => String c (slice_to n' s')
  | S _, EmptyString => ""
  end.

(** *** [repr] and [str] *)

Fixpoint contains_char (c : ascii) (s : string) : bool :=
  match s with
  | EmptyString => false
  | String c' s' => if Ascii.eqb c c' then true else contains_char c s'
  end.

Definition double_quote : ascii := ascii_of_nat 34.

Definition hex_digit (n : nat) : ascii :=
  match n with
  | 0 => "0" | 1 => "1" | 2 => "2" | 3 => "3" | 4 => "4" | 5 => "5"
  | 6 => "6" | 7 => "7" | 8 => "8" | 9 => "9" | 10 => "a" | 11 => "b"
  | 12 => "c" | 13 => "d" | 14 => "e" | _ => "f"
  end%char.

Definition repr_char (quote c : ascii) : string :=
  let n := nat_of_ascii c in
  if Ascii.eqb c quote || Ascii.eqb c "\"
  then String "\" (String c "")
  else if Nat.eqb n 9 then "\t"
  else if Nat.eqb n 10 then "\n"
  else if Nat.eqb n 13 then "\r"
  else if Nat.ltb n 32 || Nat.eqb n 127
  then String "\" (String "x" (String (hex_digit (n / 16)) (String (hex_digit (n mod 16)) "")))
  else String c "".

Fixpoint repr_chars (quote : ascii) (s : string) : string :=
  match s with
  | EmptyString => ""
  | String c s' => repr_char quote c +:+ repr_chars quote s'
  end.

(** [repr(s)] of a str: single quotes, unless the text has a single quote
    and no double quote. *)
Definition repr_str (s : string) : string :=
  let quote : ascii :=
    if contains_char "'" s && negb (contains_char double_quote s)
    then double_quote else "'"%char in
  String quote (repr_chars quote s +:+ String quote "").

Fixpoint str_join (sep : string) (l : list string) : string :=
  match l with
  | [] => ""
  | [x] => x
  | x :: l' => x +:+ sep +:+ str_join sep l'
  end.

Fixpoint repr (v : pyval) : string :=
  match v with
  | PNone => "None"
  | PBool true => "True"
  | PBool false => "False"
  | PInt z => pretty z
  | PStr s => repr_str s
  | PList l => "[" +:+ str_join ", " (List.map repr l) +:+ "]"
  | PDict d =>
      "{" +:+ str_join ", " (List.map (fun kv => repr_str (fst kv) +:+ ": " +:+ repr (snd kv)) d)
      +:+ "}"
  end.

(** [str(v)], which is also [format(v, "")] and what an f-string field
    without a format spec inserts. *)
Definition str (v : pyval) : string :=
  match v with
  | PStr s => s
  | _ => repr v
  end.

End Py.
Import Py.


(** ** [str.format] with keyword arguments only

    The cog calls [channel_format.format(players=.., max=.., name=..,
    status=..)]: no positional argument is ever passed.  The format
    string is read left to right; literal text is copied, [{{] and [}}]
    stand for one brace, and [{field!c:spec}] is a replacement field. *)

Module StrFormat.

Record field : Type := {
  f_name : string;          (* text before [!], [:] or the closing brace *)
  f_conv : option ascii;    (* the character after [!] *)
  f_spec : string           (* the text after [:] *)
}.

Inductive token : Type :=
| TChar (c : ascii)       (* one character of literal text *)
| TField (f : field)      (* a replacement field *)
| TBad (e : exn).         (* the format string is malformed from here *)

(** Where the scanner stands. *)
Inductive mode : Type :=
| MText                                   (* in literal text *)
| MOpen                                   (* just after a [{] in literal text *)
| MClose                                  (* just after a [}] in literal text *)
| MName (acc : string) (inbr : bool)       (* in a field name; [inbr]: after [[], before []] *)
| MBang (name : string)                    (* just after [!] *)
| MConv (name : string) (c : ascii)        (* just after the conversion character *)
| MSpec (name : string) (conv : option ascii) (depth : nat) (acc : string).
                                            (* in a format spec, [depth] braces deep *)

Definition snoc (s : string) (c : ascii) : string := s +:+ String c "".

Definition mk_field (name : string) (conv : option ascii) (spec : string) : token :=
  TField {| f_name := name; f_conv := conv; f_spec := spec |}.

(** What the end of the format string means in each mode. *)
Definition at_end (m : mode) : list token :=
  match m with
  | MText => []
  | _ => [TBad ValueError]
  end.

(** One character read in mode [m]: the tokens that are complete, and the
    next mode ([None]: the scan stops at an error). *)
Definition name_step (acc : string) (c : ascii) : list token * option mode :=
  if Ascii.eqb c "{" then ([TBad ValueError], None)
  else if Ascii.eqb c "[" then ([], Some (MName (snoc acc c) true))
  else if Ascii.eqb c "}" then ([mk_field acc None ""], Some MText)
  else if Ascii.eqb c ":" then ([], Some (MSpec acc None 1 ""))
  else if Ascii.eqb c "!" then ([], Some (MBang acc))
  else ([], Some (MName (snoc acc c) false)).

Definition step (m : mode) (c : ascii) : list token * option mode :=
  match m with
  | MText =>
      if Ascii.eqb c "{" then ([], Some MOpen)
      else if Ascii.eqb c "}" then ([], Some MClose)
      else ([TChar c], Some MText)
  | MOpen =>
      if Ascii.eqb c "{" then ([TChar "{"], Some MText)
      else name_step "" c
  | MClose =>
      if Ascii.eqb c "}" then ([TChar "}"], Some MText)
      else ([TBad ValueError], None)
  | MName acc true => ([], Some (MName (snoc acc c) (negb (Ascii.eqb c "]"))))
  | MName acc false => name_step acc c
  | MBang name => ([], Some (MConv name c))
  | MConv name cv =>
      if Ascii.eqb c "}" then ([mk_field name (Some cv) ""], Some MText)
      else if Ascii.eqb c ":" then ([], Some (MSpec name (Some cv) 1 ""))
      else ([TBad ValueError], None)
  | MSpec name conv depth acc =>
      if Ascii.eqb c "{" then ([], Some (MSpec name conv (S depth) (snoc acc c)))
      else if Ascii.eqb c "}" then
        match depth with
        | 0 | 1 => ([mk_field name conv acc], Some MText)
        | S d => ([], Some (MSpec name conv d (snoc acc c)))
        end
      else ([], Some (MSpec name conv depth (snoc acc c)))
  end.

Fixpoint scan (m : mode) (s : string) : list token :=
  match s with
  | EmptyString => at_end m
  | String c s' =>
      match step m c with
      | (out, Some m') => out ++ scan m' s'
      | (out, None) => out
      end
  end.

(** The tokens of a whole format string. *)
Definition tokens (template : string) : list token := scan MText template.

(** *** Resolving a field

    The field name splits at its first [.] or [[]; the part before names
    the argument.  An empty or all-digit name is a position, and the cog
    passes no positional argument. *)

Fixpoint split_first (name : string) : string * string :=
  match name with
  | EmptyString => ("", "")
  | String c s' =>
      if Ascii.eqb c "." || Ascii.eqb c "[" then ("", name)
      else let (a, b) := split_first s' in (String c a, b)
  end.

Definition digit_value (c : ascii) : option Z :=
  let n := nat_of_ascii c in
  if Nat.leb 48 n && Nat.leb n 57 then Some (Z.of_nat (n - 48)) else None.

Definition PY_SSIZE_T_MAX : Z := 9223372036854775807.

Inductive integer_reading : Type :=
| NotInteger
| TooManyDigits
| Integer (n : Z).

(** Reads decimal digits left to right; stops at the first character that
    is not a digit, or when the next digit would overflow. *)
Fixpoint get_integer_from (acc : Z) (s : string) : integer_reading :=
  match s with
  | EmptyString => Integer acc
  | String c s' =>
      match digit_value c with
      | None => NotInteger
      | Some d =>
          if Z.gtb acc ((PY_SSIZE_T_MAX - d) / 10) then TooManyDigits
          else get_integer_from (acc * 10 + d) s'
      end
  end.

Definition get_integer (s : string) : integer_reading := get_integer_from 0 s.

(** How a field with an attribute or index path, a conversion or a format
    spec is rendered once its argument is found.  It receives the keyword
    arguments too, since a format spec may hold nested fields. *)
Definition extended_render : Type :=
  list (string * pyval) -> pyval -> string -> option ascii -> string -> result string.

Definition render_field (ext : extended_render) (kwargs : list (string * pyval))
    (f : field) : result string :=
  let (first, rest) := split_first (f_name f) in
  match get_integer first with
  | TooManyDigits => Raise ValueError
  | Integer _ => Raise IndexError
  | NotInteger =>
      match dict_lookup first kwargs with
      | None => Raise (KeyError first)
      | Some v =>
          match rest, f_conv f, f_spec f with
          | EmptyString, None, EmptyString => Ok (str v)
          | _, _, _ => ext kwargs v rest (f_conv f) (f_spec f)
          end
      end
  end.

(** Tokens are rendered in order: the first failure is the exception
    that [format] raises. *)
Fixpoint render (ext : extended_render) (kwargs : list (string * pyval))
    (ts : list token) : result string :=
  match ts with
  | [] => Ok ""
  | TChar c :: ts' =>
      match render ext kwargs ts' with
      | Ok r => Ok (String c r)
      | Raise e => Raise e
      end
  | TField f :: ts' =>
      match render_field ext kwargs f with
      | Raise e => Raise e
      | Ok s =>
          match render ext kwargs ts' with
          | Ok r => Ok (s +:+ r)
          | Raise e => Raise e
          end
      end
  | TBad e :: _ => Raise e
  end.

(** [template.format] applied to keyword arguments [kwargs] *)
Definition format (ext : extended_render) (template : string)
    (kwargs : list (string * pyval)) : result string :=
  render ext kwargs (tokens template).

(** The first component of every replacement field of a format string. *)
Definition field_args (template : string) : list string :=
  flat_map (fun t => match t with
                     | TField f => [fst (split_first (f_name f))]
                     | _ => []
                     end) (tokens template).

End StrFormat.

(** ** The cog *)

Module Cog.

Inductive level : Type := LDebug | LInfo | LWarning | LError.

(** What [ctx.send] says, without the wording. *)
Inductive reply : Type :=
| NoServersTracked
| Refreshing
| RefreshComplete (updated failed : nat)
| SetCategoryFirst
| CategoryGone
| ServerNotFound
| CreateFailed
| NowTracking (server_name : string) (server_id : string)
              (players max_players : pyval) (channel : Z).

(** The outward calls of the cog, in the order they are made. *)
Inductive event : Type :=
| EGet (server_id : string) (auth : option string)
      (* [session.get(url, headers=headers, timeout=30)] *)
| EEdit (channel_id : Z) (name : string) (accepted : bool)
      (* [channel.edit(name=name)] *)
| ECreate (category : Z) (name : string) (created : option Z)
      (* [category.create_voice_channel(name=name, ...)] *)
| ESleep (seconds : Z)
      (* [asyncio.sleep(seconds)] *)
| ELog (l : level)
| ESend (r : reply).

(** How one request to the monitoring API ends. *)
Inductive http_outcome : Type :=
| TimedOut                                   (* [asyncio.TimeoutError] within the 30 seconds *)
| Failed                                     (* any other exception of the request *)
| Response (status : Z) (json : option pyval).
      (* a response; [json]: what [resp.json()] returns, [None] when it raises *)

(** What lies outside the cog: the global configuration, the monitoring
    API, Discord's answers, and the rendering of extended format fields. *)
Record env : Type := {
  api_token : option string;
  update_interval : Z;
  http : string -> http_outcome;
  edit_ok : Z -> string -> bool;
  create_ok : Z -> string -> option Z;
  ext : StrFormat.extended_render;
  utcnow : string
}.

(** A guild: its channels, and the cog's configuration for it. *)
Record guild : Type := {
  channels : gset Z;
  servers : list (string * pyval);
  category_id : pyval;
  channel_format : string
}.

(** The coroutines: state is the current name of every channel. *)
Definition M (A : Type) : Type :=
  gmap Z string -> result A * gmap Z string * list event.

Definition ret {A} (a : A) : M A := fun names => (Ok a, names, []).

Definition throw {A} (e : exn) : M A := fun names => (Raise e, names, []).

Definition bind {A B} (m : M A) (k : A -> M B) : M B :=
  fun names =>
    match m names with
    | (Ok a, names1, tr1) =>
        match k a names1 with
        | (r, names2, tr2) => (r, names2, tr1 ++ tr2)
        end
    | (Raise e, names1, tr1) => (Raise e, names1, tr1)
    end.

Notation "x <- m ;; k" := (bind m (fun x => k))
  (at level 100, m at next level, right associativity).
Notation "m ;; k" := (bind m (fun _ => k))
  (at level 100, right associativity).

Definition lift {A} (r : result A) : M A :=
  match r with
  | Ok a => ret a
  | Raise e => throw e
  end.

Definition emit (e : event) : M unit := fun names => (Ok tt, names, [e]).

Definition log (l : level) : M unit := emit (ELog l).

Definition sleep (seconds : Z) : M unit := emit (ESleep seconds).

Definition send (r : reply) : M unit := emit (ESend r).

(** [try: m except discord.HTTPException: handler] *)
Definition try_http {A} (m : M A) (handler : M A) : M A :=
  fun names =>
    match m names with
    | (Raise HTTPException, names1, tr1) =>
        match handler names1 with
        | (r, names2, tr2) => (r, names2, tr1 ++ tr2)
        end
    | other => other
    end.

(** [for k, v in d.items(): body(k, v)] *)
Fixpoint for_items {K V} (body : K -> V -> M unit) (items : list (K * V)) : M unit :=
  match items with
  | [] => ret tt
  | (k, v) :: rest => body k v ;; for_items body rest
  end.

Fixpoint for_each {V} (body : V -> M unit) (items : list V) : M unit :=
  match items with
  | [] => ret tt
  | v :: rest => body v ;; for_each body rest
  end.

(** [guild.get_channel(channel_id)]: a lookup in the guild's channel
    cache, whose keys are integers; a channel is there when it belongs to
    the guild and exists. *)
Definition cached (g : guild) (names : gmap Z string) (z : Z) : option Z :=
  if decide (z ∈ channels g) then
    match names !! z with Some _ => Some z | None => None end
  else None.

Definition get_channel (g : guild) (channel_id : pyval) : M (option Z) :=
  fun names =>
    match channel_id with
    | PInt z => (Ok (cached g names z), names, [])
    | PBool b => (Ok (cached g names (if b then 1 else 0)%Z), names, [])
    | PNone | PStr _ => (Ok None, names, [])
    | PList _ | PDict _ => (Raise TypeError, names, [])
    end.

(** [channel.name] *)
Definition channel_name (channel : Z) : M string :=
  fun names => (Ok (default "" (names !! channel)), names, []).

(** [channel.edit(name=new_name)]: Discord either rejects the call, which
    raises [discord.HTTPException], or gives the channel exactly the name
    asked for. *)
Definition channel_edit (e : env) (channel : Z) (new_name : string) : M unit :=
  fun names =>
    if edit_ok e channel new_name
    then (Ok tt, <[channel := new_name]> names, [EEdit channel new_name true])
    else (Raise HTTPException, names, [EEdit channel new_name false]).

(** [_fetch_server_info] *)
Definition _fetch_server_info (e : env) (server_id : string) : M pyval :=
  let headers :=
    match api_token e with
    | Some t => if String.eqb t "" then None else Some t
    | None => None
    end in
  emit (EGet server_id headers) ;;
  match http e server_id with
  | Response status json =>
      if Z.eqb status 200 then
        match json with
        | Some data =>
            match Py.get data "data" (PDict []) with
            | Ok payload => ret payload
            | Raise _ => log LError ;; ret PNone
            end
        | None => log LError ;; ret PNone
        end
      else if Z.eqb status 429 then log LWarning ;; ret PNone
      else log LWarning ;; ret PNone
  | TimedOut => log LWarning ;; ret PNone
  | Failed => log LError ;; ret PNone
  end.

(** The keyword arguments of [channel_format.format]. *)
Definition format_kwargs (players max_players name status : pyval)
  : list (string * pyval) :=
  [("players", players); ("max", max_players); ("name", name); ("status", status)].

(** Lines 134 to 152 of [_update_all_channels]: the name wanted for the
    channel of one entry, from the payload of its fetch. *)
Definition format_channel_name (e : env) (channel_format : string)
    (server_data info : pyval) : result string :=
  match Py.get info "attributes" (PDict []) with
  | Raise x => Raise x
  | Ok attributes =>
  match Py.get attributes "players" (PInt 0) with
  | Raise x => Raise x
  | Ok players =>
  match Py.get attributes "maxPlayers" (PInt 0) with
  | Raise x => Raise x
  | Ok max_players =>
  match Py.get attributes "name" (PStr "Unknown") with
  | Raise x => Raise x
  | Ok server_name =>
  match Py.get attributes "status" (PStr "offline") with
  | Raise x => Raise x
  | Ok status =>
      if eq_str status "offline" then
        match Py.get server_data "name" server_name with
        | Raise x => Raise x
        | Ok label => Ok ("[OFFLINE] " +:+ str label)
        end
      else
        match Py.get server_data "name" server_name with
        | Raise x => Raise x
        | Ok label =>
            StrFormat.format (ext e) channel_format
              (format_kwargs players max_players label status)
        end
  end end end end end.

Definition desired_name (e : env) (channel_format : string)
    (server_data info : pyval) : result string :=
  match format_channel_name e channel_format server_data info with
  | Ok new_name => Ok (slice_to 100 new_name)
  | Raise x => Raise x
  end.

(** The body of the inner loop of [_update_all_channels]. *)
Definition update_entry (e : env) (g : guild) (channel_format : string)
    (bm_server_id : string) (server_data : pyval) : M unit :=
  channel_id <- lift (Py.get server_data "channel_id" PNone) ;;
  if negb (truthy channel_id) then ret tt else
  channel <- get_channel g channel_id ;;
  match channel with
  | None => ret tt
  | Some channel =>
      info <- _fetch_server_info e bm_server_id ;;
      if negb (truthy info) then ret tt else
      new_name <- lift (desired_name e channel_format server_data info) ;;
      current <- channel_name channel ;;
      (if String.eqb current new_name then ret tt
       else try_http (channel_edit e channel new_name ;; log LDebug) (log LError)) ;;
      sleep 2
  end.

Definition update_guild (e : env) (g : guild) : M unit :=
  match servers g with
  | [] => ret tt
  | _ => for_items (update_entry e g (channel_format g)) (servers g)
  end.

(** [_update_all_channels] *)
Definition _update_all_channels (e : env) (guilds : list guild) : M unit :=
  for_each (update_guild e) guilds.

(** One turn of the [while True] of [_update_loop]. *)
Definition loop_turn (e : env) (guilds : list guild) : M unit :=
  fun names =>
    match _update_all_channels e guilds names with
    | (Ok _, names1, tr1) => (Ok tt, names1, tr1 ++ [ESleep (update_interval e)])
    | (Raise _, names1, tr1) =>
        (Ok tt, names1, tr1 ++ [ELog LError; ESleep (update_interval e)])
    end.

Fixpoint loop_turns (e : env) (guilds : list guild) (turns : nat) : M unit :=
  match turns with
  | O => ret tt
  | S n => loop_turn e guilds ;; loop_turns e guilds n
  end.

(** [_update_loop], cut after [turns] turns of its endless loop. *)
Definition _update_loop (e : env) (guilds : list guild) (turns : nat) : M unit :=
  sleep 10 ;; loop_turns e guilds turns.

(** *** The [refresh] command *)

(** Lines 400 to 413 of [refresh_servers]: the name the command wants for
    the channel of one entry. *)
Definition refresh_channel_name (e : env) (channel_format : string)
    (server_data info : pyval) : result string :=
  match Py.get info "attributes" (PDict []) with
  | Raise x => Raise x
  | Ok attributes =>
  match Py.get attributes "players" (PInt 0) with
  | Raise x => Raise x
  | Ok players =>
  match Py.get attributes "maxPlayers" (PInt 0) with
  | Raise x => Raise x
  | Ok max_players =>
  match Py.get attributes "status" (PStr "offline") with
  | Raise x => Raise x
  | Ok status =>
      if eq_str status "offline" then
        match Py.get server_data "name" (PStr "Unknown") with
        | Raise x => Raise x
        | Ok label => Ok ("[OFFLINE] " +:+ str label)
        end
      else
        match Py.get server_data "name" (PStr "Unknown") with
        | Raise x => Raise x
        | Ok label =>
            match StrFormat.format (ext e) channel_format
                    (format_kwargs players max_players label status) with
            | Ok text => Ok (slice_to 100 text)
            | Raise x => Raise x
            end
        end
  end end end end.

(** The body of the loop of [refresh_servers]; [counts] is
    [(updated, failed)]. *)
Definition refresh_entry (e : env) (g : guild) (channel_format : string)
    (counts : nat * nat) (bm_server_id : string) (server_data : pyval)
  : M (nat * nat) :=
  let (updated, failed) := counts in
  channel_id <- lift (Py.get server_data "channel_id" PNone) ;;
  if negb (truthy channel_id) then ret (updated, failed) else
  channel <- get_channel g channel_id ;;
  match channel with
  | None => ret (updated, failed)
  | Some channel =>
      info <- _fetch_server_info e bm_server_id ;;
      if negb (truthy info) then ret (updated, S failed) else
      new_name <- lift (refresh_channel_name e channel_format server_data info) ;;
      counts' <- try_http (channel_edit e channel new_name ;; ret (S updated, failed))
                          (ret (updated, S failed)) ;;
      sleep 2 ;;
      ret counts'
  end.

Fixpoint refresh_entries (e : env) (g : guild) (channel_format : string)
    (counts : nat * nat) (items : list (string * pyval)) : M (nat * nat) :=
  match items with
  | [] => ret counts
  | (bm_server_id, server_data) :: rest =>
      counts' <- refresh_entry e g channel_format counts bm_server_id server_data ;;
      refresh_entries e g channel_format counts' rest
  end.

(** [refresh_servers] *)
Definition refresh_servers (e : env) (g : guild) : M unit :=
  match servers g with
  | [] => send NoServersTracked
  | _ =>
      send Refreshing ;;
      counts <- refresh_entries e g (channel_format g) (0, 0) (servers g) ;;
      send (RefreshComplete (fst counts) (snd counts))
  end.

(** *** The [add] command *)

(** [custom_name or attributes.get("name", "Unknown Server")] *)
Definition add_server_name (custom_name : option string) (attributes : pyval)
  : result pyval :=
  match custom_name with
  | Some s =>
      if negb (String.eqb s "") then Ok (PStr s)
      else Py.get attributes "name" (PStr "Unknown Server")
  | None => Py.get attributes "name" (PStr "Unknown Server")
  end.

(** Lines 261 to 264 and 287 to 293 of [add_server]: the name of the
    channel that the command creates. *)
Definition add_channel_name (e : env) (channel_format : string)
    (custom_name : option string) (info : pyval) : result string :=
  match Py.get info "attributes" (PDict []) with
  | Raise x => Raise x
  | Ok attributes =>
  match add_server_name custom_name attributes with
  | Raise x => Raise x
  | Ok server_name =>
  match Py.get attributes "players" (PInt 0) with
  | Raise x => Raise x
  | Ok players =>
  match Py.get attributes "maxPlayers" (PInt 0) with
  | Raise x => Raise x
  | Ok max_players =>
      match StrFormat.format (ext e) channel_format
              (format_kwargs players max_players server_name (PStr "online")) with
      | Ok text => Ok (slice_to 100 text)
      | Raise x => Raise x
      end
  end end end end.

(** [category.create_voice_channel(name=channel_name, ...)] *)
Definition create_voice_channel (e : env) (category : Z) (channel_name : string)
  : M Z :=
  fun names =>
    match create_ok e category channel_name with
    | Some id =>
        (Ok id, <[id := channel_name]> names, [ECreate category channel_name (Some id)])
    | None => (Raise HTTPException, names, [ECreate category channel_name None])
    end.

(** [add_server]; the result is the guild with the configuration and the
    channels as the command leaves them. *)
Definition add_server (e : env) (g : guild) (author : Z) (server_id : string)
    (custom_name : option string) : M guild :=
  if negb (truthy (category_id g)) then send SetCategoryFirst ;; ret g else
  category <- get_channel g (category_id g) ;;
  match category with
  | None => send CategoryGone ;; ret g
  | Some category =>
      info <- _fetch_server_info e server_id ;;
      if negb (truthy info) then send ServerNotFound ;; ret g else
      attributes <- lift (Py.get info "attributes" (PDict [])) ;;
      server_name <- lift (add_server_name custom_name attributes) ;;
      players <- lift (Py.get attributes "players" (PInt 0)) ;;
      max_players <- lift (Py.get attributes "maxPlayers" (PInt 0)) ;;
      channel_name <- lift (add_channel_name e (channel_format g) custom_name info) ;;
      created <- try_http (id <- create_voice_channel e category channel_name ;; ret (Some id))
                          (send CreateFailed ;; ret None) ;;
      match created with
      | None => ret g
      | Some id =>
          let entry := PDict [("channel_id", PInt id); ("name", server_name);
                              ("added_by", PInt author); ("added_at", PStr (utcnow e))] in
          let g' := {| channels := channels g ∪ {[id]};
                       servers := dict_set server_id entry (servers g);
                       category_id := category_id g;
                       channel_format := channel_format g |} in
          send (NowTracking (str server_name) server_id players max_players id) ;;
          ret g'
      end
  end.

End Cog.
Import StrFormat Cog.

(** ** Definitions used to state the properties *)

(** What [_fetch_server_info] returns, and the calls it makes; neither
    depends on the channel names. *)
Definition fetch_value (e : env) (server_id : string) : pyval :=
  match _fetch_server_info e server_id ∅ with
  | (Ok v, _, _) => v
  | (Raise _, _, _) => PNone
  end.

Definition fetch_trace (e : env) (server_id : string) : list event :=
  snd (_fetch_server_info e server_id ∅).

(** The channel of an entry, as the two tests at the head of the loop
    body find it. *)
Definition resolve (g : guild) (names : gmap Z string) (server_data : pyval)
  : result (option Z) :=
  match Py.get server_data "channel_id" PNone with
  | Raise x => Raise x
  | Ok channel_id =>
      if negb (truthy channel_id) then Ok None
      else fst (fst (get_channel g channel_id names))
  end.

(** The integer under which the channel of an entry is looked up. *)
Definition entry_channel_id (server_data : pyval) : option Z :=
  match server_data with
  | PDict d =>
      match dict_get d "channel_id" PNone with
      | PInt z => if Z.eqb z 0 then None else Some z
      | PBool true => Some 1%Z
      | _ => None
      end
  | _ => None
  end.

(** The loop body, case by case. *)
Definition entry_normal (e : env) (g : guild) (channel_format : string)
    (bm_server_id : string) (server_data : pyval) (names : gmap Z string)
  : result unit * gmap Z string * list event :=
  match resolve g names server_data with
  | Raise x => (Raise x, names, [])
  | Ok None => (Ok tt, names, [])
  | Ok (Some channel) =>
      let info := fetch_value e bm_server_id in
      let fetched := fetch_trace e bm_server_id in
      if negb (truthy info) then (Ok tt, names, fetched)
      else
        match desired_name e channel_format server_data info with
        | Raise x => (Raise x, names, fetched)
        | Ok new_name =>
            if String.eqb (default "" (names !! channel)) new_name
            then (Ok tt, names, fetched ++ [ESleep 2])
            else if edit_ok e channel new_name
            then (Ok tt, <[channel := new_name]> names,
                  fetched ++ [EEdit channel new_name true; ELog LDebug; ESleep 2])
            else (Ok tt, names,
                  fetched ++ [EEdit channel new_name false; ELog LError; ESleep 2])
        end
  end.

(** A pass as one list of jobs: every entry of every guild, in order. *)
Definition job : Type := guild * (string * pyval).

Definition run_job (e : env) (j : job) : M unit :=
  update_entry e (fst j) (channel_format (fst j)) (fst (snd j)) (snd (snd j)).

Definition jobs_of (guilds : list guild) : list job :=
  flat_map (fun g => List.map (pair g) (servers g)) guilds.

Definition job_channel_ids (js : list job) : list Z :=
  omap (fun j : job => entry_channel_id (snd (snd j))) js.

(** Shapes of format strings: text without braces, and plain field names. *)
Fixpoint all_chars (p : ascii -> bool) (s : string) : bool :=
  match s with
  | EmptyString => true
  | String c s' => p c && all_chars p s'
  end.

Definition not_brace (c : ascii) : bool :=
  negb (Ascii.eqb c "{") && negb (Ascii.eqb c "}").

(** A character that neither ends nor splits a field name. *)
Definition name_char (c : ascii) : bool :=
  negb (Ascii.eqb c "{") && negb (Ascii.eqb c "}") && negb (Ascii.eqb c "[")
  && negb (Ascii.eqb c ":") && negb (Ascii.eqb c "!") && negb (Ascii.eqb c ".").


(** A job that reaches the apply step: its channel resolves, its fetch
    returns a payload, and the name of the channel can be computed. *)
Definition reaches_apply (e : env) (names : gmap Z string) (j : job) : bool :=
  match resolve (fst j) names (snd (snd j)) with
  | Ok (Some _) =>
      truthy (fetch_value e (fst (snd j)))
      && is_ok (desired_name e (channel_format (fst j)) (snd (snd j))
                  (fetch_value e (fst (snd j))))
  | _ => false
  end.

(** The same world with another monitoring API. *)
Definition with_http (h : string -> http_outcome) (e : env) : env := {|
  api_token := api_token e;
  update_interval := update_interval e;
  http := h;
  edit_ok := edit_ok e;
  create_ok := create_ok e;
  ext := ext e;
  utcnow := utcnow e
|}.

Definition is_edit (ev : event) : bool :=
  match ev with EEdit _ _ _ => true | _ => false end.

Definition is_sleep (ev : event) : bool :=
  match ev with ESleep _ => true | _ => false end.

(** ** Sample data *)

Definition no_ext : StrFormat.extended_render := fun _ _ _ _ _ => Raise OtherError.

Definition snapshot (players max_players : Z) (name status : string) : pyval :=
  PDict [("type", PStr "server");
         ("attributes", PDict [("name", PStr name); ("players", PInt players);
                               ("maxPlayers", PInt max_players); ("status", PStr status)])].

Definition body (payload : pyval) : option pyval := Some (PDict [("data", payload)]).

Definition sample_http (server_id : string) : http_outcome :=
  if String.eqb server_id "A" then Response 200 (body (snapshot 12 64 "Alpha" "online"))
  else if String.eqb server_id "B" then Response 200 (body (snapshot 0 64 "Beta" "offline"))
  else if String.eqb server_id "C" then TimedOut
  else if String.eqb server_id "D" then Response 429 None
  else if String.eqb server_id "E" then Response 200 (Some (PList []))
  else if String.eqb server_id "F" then Response 200 None
  else Response 404 None.

Definition sample_env : env := {|
  api_token := None;
  update_interval := 300;
  http := sample_http;
  edit_ok := fun _ _ => true;
  create_ok := fun _ _ => Some 900%Z;
  ext := no_ext;
  utcnow := "2024-01-01T00:00:00"
|}.

(** The same world, with a Discord that rejects every rename. *)
Definition rejecting_env : env := {|
  api_token := None;
  update_interval := 300;
  http := sample_http;
  edit_ok := fun _ _ => false;
  create_ok := fun _ _ => Some 900%Z;
  ext := no_ext;
  utcnow := "2024-01-01T00:00:00"
|}.

Definition entry (channel : Z) (name : string) : pyval :=
  PDict [("channel_id", PInt channel); ("name", PStr name);
         ("added_by", PInt 7); ("added_at", PStr "2024-01-01T00:00:00")].

Definition default_format : string := "[{players}/{max}] {name}".

Definition sample_guild (template : string) (tracked : list (string * pyval)) : guild := {|
  channels := {[ 1%Z; 10%Z; 11%Z; 12%Z ]};
  servers := tracked;
  category_id := PInt 1;
  channel_format := template
|}.


Definition sample_names : gmap Z string :=
  <[1%Z := "Server Stats"]> (<[10%Z := "a"]> (<[11%Z := "b"]> (<[12%Z := "c"]> ∅))).

(** A monitoring API that reports every server online. *)
Definition online_http (server_id : string) : http_outcome :=
  Response 200 (body (snapshot 0 64 "Beta" "online")).

Definition long_name : string :=
  "0123456789012345678901234567890123456789012345678901234567890123456789012345678901234567890123456789".

(** ** The administration commands

    The commands that change the configuration or only report.  They are
    functions of the configuration they read; each returns the
    configuration it leaves and the calls it makes. *)

Module Admin.

(** One field of the embed of [list]. *)
Record list_field : Type := {
  lf_name : string;         (* the stored name, or "Unknown" *)
  lf_server_id : string;
  lf_channel : option Z     (* the channel mentioned; [None] reads "Channel deleted" *)
}.

(** One field of the embed of [search]. *)
Record search_field : Type := {
  sf_name : string;         (* [name[:256]] *)
  sf_server_id : string;
  sf_players : string;
  sf_max_players : string;
  sf_status : string        (* [status.title()] *)
}.

(** What [ctx.send] says, without the wording. *)
Inductive answer : Type :=
| TokenSet
| IntervalTooSmall
| IntervalSet (seconds : Z)
| CategorySet (category_name : string)
| FormatSet (format_string : string)
| NotTracked
| Removed (server_name server_id : string)
| NothingTracked
| ServerList (fields : list list_field)
| SearchFailed
| SearchError
| NoServersFound
| SearchResults (query : string) (fields : list search_field).

Inductive call : Type :=
| Said (a : answer)                               (* [ctx.send] *)
| DeleteMessage (accepted : bool)                 (* [ctx.message.delete()] *)
| DeleteChannel (channel : Z) (accepted : bool)   (* [channel.delete(reason=...)] *)
| SearchGet (query : string) (auth : option string).
      (* [session.get(url, headers=headers, params=params, timeout=30)] *)

(** Discord's and the API's answers to these commands, and [str.title],
    whose case mapping is the one of the Unicode tables of the runtime. *)
Record world : Type := {
  message_delete_ok : bool;
  channel_delete_ok : Z -> bool;
  search_http : string -> http_outcome;
  str_title : string -> string
}.

Definition with_api_token (t : option string) (e : env) : env := {|
  api_token := t;
  update_interval := update_interval e;
  http := http e;
  edit_ok := edit_ok e;
  create_ok := create_ok e;
  ext := ext e;
  utcnow := utcnow e
|}.

Definition with_update_interval (seconds : Z) (e : env) : env := {|
  api_token := api_token e;
  update_interval := seconds;
  http := http e;
  edit_ok := edit_ok e;
  create_ok := create_ok e;
  ext := ext e;
  utcnow := utcnow e
|}.

(** [set_token]: the message that held the token is deleted when Discord
    allows it. *)
Definition set_token (w : world) (e : env) (token : string) : env * list call :=
  (with_api_token (Some token) e,
   [DeleteMessage (message_delete_ok w); Said TokenSet]).

(** [set_interval] *)
Definition set_interval (e : env) (seconds : Z) : env * list call :=
  if Z.ltb seconds 60 then (e, [Said IntervalTooSmall])
  else (with_update_interval seconds e, [Said (IntervalSet seconds)]).

(** [set_category]; [category] is the id of a category channel of the guild. *)
Definition set_category (g : guild) (category : Z) (names : gmap Z string)
  : guild * list call :=
  ({| channels := channels g;
      servers := servers g;
      category_id := PInt category;
      channel_format := channel_format g |},
   [Said (CategorySet (default "" (names !! category)))]).


(** [del d[k]] *)
Fixpoint dict_del (k : string) (d : list (string * pyval)) : list (string * pyval) :=
  match d with
  | [] => []
  | (k', v) :: d' =>
      if String.eqb k k' then dict_del k d' else (k', v) :: dict_del k d'
  end.

Definition forget (g : guild) (server_id : string) (gone : option Z) : guild := {|
  channels := match gone with
              | Some channel => channels g ∖ {[channel]}
              | None => channels g
              end;
  servers := dict_del server_id (servers g);
  category_id := category_id g;
  channel_format := channel_format g
|}.

(** [remove_server]: the channel is deleted when it still exists and
    Discord allows it; the entry is dropped in every case. *)
Definition remove_server (w : world) (g : guild) (server_id : string)
    (names : gmap Z string) : result guild * gmap Z string * list call :=
  match dict_lookup server_id (servers g) with
  | None => (Ok g, names, [Said NotTracked])
  | Some server_data =>
      match Py.get server_data "channel_id" PNone with
      | Raise x => (Raise x, names, [])
      | Ok channel_id =>
      match Py.get server_data "name" (PStr "Unknown") with
      | Raise x => (Raise x, names, [])
      | Ok server_name =>
          let said := Said (Removed (str server_name) server_id) in
          if truthy channel_id then
            match get_channel g channel_id names with
            | (Raise x, _, _) => (Raise x, names, [])
            | (Ok None, _, _) => (Ok (forget g server_id None), names, [said])
            | (Ok (Some channel), _, _) =>
                if channel_delete_ok w channel
                then (Ok (forget g server_id (Some channel)), delete channel names,
                      [DeleteChannel channel true; said])
                else (Ok (forget g server_id None), names,
                      [DeleteChannel channel false; said])
            end
          else (Ok (forget g server_id None), names, [said])
      end end
  end.

(** The field of [list] for one entry. *)
Definition list_field_of (g : guild) (names : gmap Z string) (server_id : string)
    (data : pyval) : result list_field :=
  match Py.get data "channel_id" PNone with
  | Raise x => Raise x
  | Ok channel_id =>
      match (if truthy channel_id then fst (fst (get_channel g channel_id names))
             else Ok None) with
      | Raise x => Raise x
      | Ok channel =>
          match Py.get data "name" (PStr "Unknown") with
          | Raise x => Raise x
          | Ok name =>
              Ok {| lf_name := str name; lf_server_id := server_id;
                    lf_channel := channel |}
          end
      end
  end.

Fixpoint list_fields (g : guild) (names : gmap Z string)
    (items : list (string * pyval)) : result (list list_field) :=
  match items with
  | [] => Ok []
  | (server_id, data) :: rest =>
      match list_field_of g names server_id data with
      | Raise x => Raise x
      | Ok f =>
          match list_fields g names rest with
          | Raise x => Raise x
          | Ok fs => Ok (f :: fs)
          end
      end
  end.

(** [list_servers] *)
Definition list_servers (g : guild) (names : gmap Z string) : result unit * list call :=
  match servers g with
  | [] => (Ok tt, [Said NothingTracked])
  | _ =>
      match list_fields g names (servers g) with
      | Raise x => (Raise x, [])
      | Ok fields => (Ok tt, [Said (ServerList fields)])
      end
  end.

(** *** [search] *)

(** [status.title()] needs a [str]: any other value has no such method. *)
Definition title_text (title : string -> string) (v : pyval) : result string :=
  match v with
  | PStr s => Ok (title s)
  | _ => Raise AttributeError
  end.

Fixpoint chars (s : string) : list pyval :=
  match s with
  | EmptyString => []
  | String c s' => PStr (String c "") :: chars s'
  end.

(** The values that [for server in servers[:10]] runs over. *)
Definition first_ten (found : pyval) : result (list pyval) :=
  match found with
  | PList l => Ok (firstn 10 l)
  | PStr s => Ok (chars (slice_to 10 s))
  | _ => Raise TypeError
  end.

(** [name[:256]], as the embed stores it. *)
Definition field_name (name : pyval) : result string :=
  match name with
  | PStr s => Ok (slice_to 256 s)
  | PList l => Ok (str (PList (firstn 256 l)))
  | _ => Raise TypeError
  end.

(** The body of the loop of [search_servers]. *)
Definition search_field_of (title : string -> string) (server : pyval)
  : result search_field :=
  match Py.get server "attributes" (PDict []) with
  | Raise x => Raise x
  | Ok attrs =>
  match Py.get server "id" (PStr "Unknown") with
  | Raise x => Raise x
  | Ok server_id =>
  match Py.get attrs "name" (PStr "Unknown") with
  | Raise x => Raise x
  | Ok name =>
  match Py.get attrs "players" (PInt 0) with
  | Raise x => Raise x
  | Ok players =>
  match Py.get attrs "maxPlayers" (PInt 0) with
  | Raise x => Raise x
  | Ok max_players =>
  match Py.get attrs "status" (PStr "unknown") with
  | Raise x => Raise x
  | Ok status =>
  match field_name name with
  | Raise x => Raise x
  | Ok shown =>
  match title_text title status with
  | Raise x => Raise x
  | Ok status_text =>
      Ok {| sf_name := shown; sf_server_id := str server_id;
            sf_players := str players; sf_max_players := str max_players;
            sf_status := status_text |}
  end end end end end end end end.

Fixpoint search_fields (title : string -> string) (found : list pyval)
  : result (list search_field) :=
  match found with
  | [] => Ok []
  | server :: rest =>
      match search_field_of title server with
      | Raise x => Raise x
      | Ok f =>
          match search_fields title rest with
          | Raise x => Raise x
          | Ok fs => Ok (f :: fs)
          end
      end
  end.

(** [search_servers] *)
Definition search_servers (w : world) (e : env) (query : string)
  : result unit * list call :=
  let headers :=
    match api_token e with
    | Some t => if String.eqb t "" then None else Some t
    | None => None
    end in
  let request := SearchGet query headers in
  match search_http w query with
  | TimedOut | Failed => (Ok tt, [request; Said SearchError])
  | Response status json =>
      if negb (Z.eqb status 200) then (Ok tt, [request; Said SearchFailed])
      else
        match json with
        | None => (Ok tt, [request; Said SearchError])
        | Some data =>
            match Py.get data "data" (PList []) with
            | Raise _ => (Ok tt, [request; Said SearchError])
            | Ok found =>
                if negb (truthy found) then (Ok tt, [request; Said NoServersFound])
                else
                  match first_ten found with
                  | Raise x => (Raise x, [request])
                  | Ok shown =>
                      match search_fields (str_title w) shown with
                      | Raise x => (Raise x, [request])
                      | Ok fields => (Ok tt, [request; Said (SearchResults query fields)])
                      end
                  end
            end
        end
  end.

End Admin.
Import Admin.

(** ** More definitions used to state properties *)

(** The loop body of [refresh_servers], case by case. *)
Definition refresh_normal (e : env) (g : guild) (channel_format : string)
    (counts : nat * nat) (bm_server_id : string) (server_data : pyval)
    (names : gmap Z string) : result (nat * nat) * gmap Z string * list event :=
  match resolve g names server_data with
  | Raise x => (Raise x, names, [])
  | Ok None => (Ok counts, names, [])
  | Ok (Some channel) =>
      let info := fetch_value e bm_server_id in
      let fetched := fetch_trace e bm_server_id in
      if negb (truthy info) then (Ok (fst counts, S (snd counts)), names, fetched)
      else
        match refresh_channel_name e channel_format server_data info with
        | Raise x => (Raise x, names, fetched)
        | Ok new_name =>
            if edit_ok e channel new_name
            then (Ok (S (fst counts), snd counts), <[channel := new_name]> names,
                  fetched ++ [EEdit channel new_name true; ESleep 2])
            else (Ok (fst counts, S (snd counts)), names,
                  fetched ++ [EEdit channel new_name false; ESleep 2])
        end
  end.

(** What [add_server] computes from the payload before it creates the
    channel: the name to store, the two counts, the name of the channel. *)
Definition add_details (e : env) (channel_format : string)
    (custom_name : option string) (info : pyval)
  : result (pyval * pyval * pyval * string) :=
  match Py.get info "attributes" (PDict []) with
  | Raise x => Raise x
  | Ok attributes =>
  match add_server_name custom_name attributes with
  | Raise x => Raise x
  | Ok server_name =>
  match Py.get attributes "players" (PInt 0) with
  | Raise x => Raise x
  | Ok players =>
  match Py.get attributes "maxPlayers" (PInt 0) with
  | Raise x => Raise x
  | Ok max_players =>
  match add_channel_name e channel_format custom_name info with
  | Raise x => Raise x
  | Ok channel_name => Ok (server_name, players, max_players, channel_name)
  end end end end end.

(** The entry that [add_server] stores. *)
Definition new_entry (e : env) (author channel : Z) (server_name : pyval) : pyval :=
  PDict [("channel_id", PInt channel); ("name", server_name);
         ("added_by", PInt author); ("added_at", PStr (utcnow e))].

(** [add_server], case by case. *)
Definition add_normal (e : env) (g : guild) (author : Z) (server_id : string)
    (custom_name : option string) (names : gmap Z string)
  : result guild * gmap Z string * list event :=
  if negb (truthy (category_id g)) then (Ok g, names, [ESend SetCategoryFirst])
  else
    match fst (fst (get_channel g (category_id g) names)) with
    | Raise x => (Raise x, names, [])
    | Ok None => (Ok g, names, [ESend CategoryGone])
    | Ok (Some category) =>
        let info := fetch_value e server_id in
        let fetched := fetch_trace e server_id in
        if negb (truthy info) then (Ok g, names, fetched ++ [ESend ServerNotFound])
        else
          match add_details e (channel_format g) custom_name info with
          | Raise x => (Raise x, names, fetched)
          | Ok (server_name, players, max_players, channel_name) =>
              match create_ok e category channel_name with
              | None =>
                  (Ok g, names,
                   fetched ++ [ECreate category channel_name None; ESend CreateFailed])
              | Some id =>
                  (Ok {| channels := channels g ∪ {[id]};
                         servers := dict_set server_id
                                      (new_entry e author id server_name) (servers g);
                         category_id := category_id g;
                         channel_format := channel_format g |},
                   <[id := channel_name]> names,
                   fetched ++ [ECreate category channel_name (Some id);
                               ESend (NowTracking (str server_name) server_id
                                        players max_players id)])
              end
          end
    end.

Definition is_accepted_edit (ev : event) : bool :=
  match ev with EEdit _ _ true => true | _ => false end.

Definition is_rejected_edit (ev : event) : bool :=
  match ev with EEdit _ _ false => true | _ => false end.

(** An entry whose channel is found. *)
Definition resolves (g : guild) (names : gmap Z string) (item : string * pyval) : bool :=
  match resolve g names (snd item) with
  | Ok (Some _) => true
  | _ => false
  end.

(** An entry whose channel is found and whose server the API does not
    return, and one whose server it returns. *)
Definition fetch_fails (e : env) (g : guild) (names : gmap Z string)
    (item : string * pyval) : bool :=
  resolves g names item && negb (truthy (fetch_value e (fst item))).

Definition is_renamed (e : env) (g : guild) (names : gmap Z string)
    (item : string * pyval) : bool :=
  resolves g names item && truthy (fetch_value e (fst item)).

(** A trace in which every rename call is at once followed by a sleep of
    2 seconds, and nothing sleeps but after a rename call. *)
Fixpoint paced (tr : list event) : bool :=
  match tr with
  | [] => true
  | EEdit _ _ _ :: rest =>
      match rest with
      | ESleep seconds :: rest' => Z.eqb seconds 2 && paced rest'
      | _ => false
      end
  | ESleep _ :: _ => false
  | _ :: rest => paced rest
  end.

Definition is_request (ev : event) : bool :=
  match ev with EGet _ _ => true | _ => false end.

Definition count (p : event -> bool) (tr : list event) : nat :=
  List.length (List.filter p tr).

(** The configuration after a series of [setinterval] commands. *)
Definition set_intervals (e : env) (commands : list Z) : env :=
  fold_left (fun e' seconds => fst (set_interval e' seconds)) commands e.

(** [str.title] on ASCII letters: a letter that follows a letter is in
    lower case, any other letter in upper case. *)
Definition is_lower (c : ascii) : bool :=
  let n := nat_of_ascii c in Nat.leb 97 n && Nat.leb n 122.

Definition is_upper (c : ascii) : bool :=
  let n := nat_of_ascii c in Nat.leb 65 n && Nat.leb n 90.

Fixpoint title_from (after_letter : bool) (s : string) : string :=
  match s with
  | EmptyString => EmptyString
  | String c s' =>
      if is_lower c then
        String (if after_letter then c else ascii_of_nat (nat_of_ascii c - 32))
               (title_from true s')
      else if is_upper c then
        String (if after_letter then ascii_of_nat (nat_of_ascii c + 32) else c)
               (title_from true s')
      else String c (title_from false s')
  end.

Definition sample_world : world := {|
  message_delete_ok := false;
  channel_delete_ok := fun _ => true;
  str_title := title_from false;
  search_http := fun query =>
    if String.eqb query "none" then Response 200 (body (PList []))
    else if String.eqb query "down" then Response 503 None
    else Response 200 (body (PList [PDict [("id", PStr "A");
                                           ("attributes", PDict [("name", PStr "Alpha");
                                                                 ("players", PInt 12);
                                                                 ("maxPlayers", PInt 64);
                                                                 ("status", PStr "online")])]]))
|}.

(** ** Properties of the Python layer *)

Section SliceTo.

Lemma slice_to_length (n : nat) (s : string) :
  String.length (slice_to n s) = Nat.min n (String.length s).
Proof.
  revert s; induction n as [|n IH]; intros [|c s]; simpl; try reflexivity.
  now rewrite IH.
Qed.

Lemma slice_to_short (n : nat) (s : string) :
  String.length s <= n -> slice_to n s = s.
Proof.
  revert s; induction n as [|n IH]; intros [|c s]; simpl; intros H;
    try reflexivity; try lia.
  f_equal; apply IH; lia.
Qed.

Lemma slice_to_prefix (n : nat) (s : string) :
  exists rest, s = slice_to n s +:+ rest.
Proof.
  revert s; induction n as [|n IH]; intros s.
  - exists s; reflexivity.
  - destruct s as [|c s]; [exists ""; reflexivity|].
    destruct (IH s) as [rest Hrest].
    exists rest; rewrite Hrest at 1; reflexivity.
Qed.

Lemma slice_to_long (n : nat) (s : string) :
  n < String.length s -> String.length (slice_to n s) = n.
Proof. intros H; rewrite slice_to_length; lia. Qed.

End SliceTo.

Lemma append_cons (c : ascii) (a s : string) : String c a +:+ s = String c (a +:+ s).
Proof. reflexivity. Qed.

Lemma append_nil_r (s : string) : s +:+ "" = s.
Proof.
  induction s as [|c s IH]; [reflexivity|].
  rewrite append_cons. now f_equal.
Qed.

(** ** Properties of [str.format] *)

Section FormatFacts.

Context (ext : StrFormat.extended_render) (kwargs : list (string * pyval)).


Lemma render_field_key_error (f : field) :
  get_integer (fst (split_first (f_name f))) = NotInteger ->
  dict_lookup (fst (split_first (f_name f))) kwargs = None ->
  render_field ext kwargs f = Raise (KeyError (fst (split_first (f_name f)))).
Proof.
  unfold render_field.
  destruct (split_first (f_name f)) as [first rest]; simpl.
  now intros -> ->.
Qed.



(** Literal text renders as itself. *)
Lemma render_chars (cs : list ascii) (ts : list token) :
  render ext kwargs (List.map TChar cs ++ ts) =
  match render ext kwargs ts with
  | Ok r => Ok (string_of_list_ascii cs +:+ r)
  | Raise x => Raise x
  end.
Proof.
  induction cs as [|c cs IH]; simpl.
  - now destruct (render ext kwargs ts).
  - rewrite IH. now destruct (render ext kwargs ts).
Qed.

End FormatFacts.

(** *** The scanner on the shape [text{name}rest] *)

Lemma scan_text (pre rest : string) :
  all_chars not_brace pre = true ->
  scan MText (pre +:+ rest) = List.map TChar (list_ascii_of_string pre) ++ scan MText rest.
Proof.
  induction pre as [|c pre IH]; simpl; [reflexivity|].
  unfold not_brace at 1.
  intros H. apply andb_prop in H as [Hc Hpre]. apply andb_prop in Hc as [H1 H2].
  apply negb_true_iff in H1, H2. rewrite H1, H2; simpl.
  now rewrite IH.
Qed.

Lemma name_step_char (acc : string) (c : ascii) :
  name_char c = true -> name_step acc c = ([], Some (MName (snoc acc c) false)).
Proof.
  unfold name_char, name_step; intros H.
  repeat (apply andb_prop in H as [H ?]).
  repeat match goal with Hx : negb _ = true |- _ => apply negb_true_iff in Hx; rewrite Hx end.
  reflexivity.
Qed.

Lemma append_snoc (acc : string) (c : ascii) (s : string) :
  snoc acc c +:+ s = acc +:+ String c s.
Proof.
  unfold snoc. induction acc as [|a acc IH]; [reflexivity|].
  rewrite !append_cons. f_equal. exact IH.
Qed.

Lemma scan_name (nm acc rest : string) :
  all_chars name_char nm = true ->
  scan (MName acc false) (nm +:+ String "}" rest) =
  mk_field (acc +:+ nm) None "" :: scan MText rest.
Proof.
  revert acc; induction nm as [|c nm IH]; intros acc; simpl.
  - intros _. now rewrite append_nil_r.
  - intros H. apply andb_prop in H as [Hc Hnm].
    rewrite (name_step_char acc c Hc); simpl.
    rewrite (IH _ Hnm). now rewrite append_snoc.
Qed.

Lemma scan_field (nm rest : string) :
  all_chars name_char nm = true ->
  scan MText (String "{" (nm +:+ String "}" rest)) =
  mk_field nm None "" :: scan MText rest.
Proof.
  intros H. destruct nm as [|c nm]; [reflexivity|].
  simpl in H. apply andb_prop in H as [Hc Hnm].
  change (scan MText (String "{" (String c nm +:+ String "}" rest)))
    with (scan MOpen (String c (nm +:+ String "}" rest))).
  simpl scan. 
  assert (Hne : Ascii.eqb c "{" = false).
  { unfold name_char in Hc. repeat (apply andb_prop in Hc as [Hc ?]).
    now apply negb_true_iff in Hc. }
  rewrite Hne, (name_step_char "" c Hc); simpl.
  now rewrite (scan_name nm _ rest Hnm).
Qed.

Lemma split_first_plain (nm : string) :
  all_chars name_char nm = true -> split_first nm = (nm, "").
Proof.
  induction nm as [|c nm IH]; simpl; [reflexivity|].
  intros H. apply andb_prop in H as [Hc Hnm].
  unfold name_char in Hc. repeat (apply andb_prop in Hc as [Hc ?]).
  repeat match goal with Hx : negb _ = true |- _ => apply negb_true_iff in Hx; rewrite Hx end.
  simpl. now rewrite (IH Hnm).
Qed.

(** ** The fetch *)

Lemma fetch_run (e : env) (server_id : string) (names : gmap Z string) :
  _fetch_server_info e server_id names =
  (Ok (fetch_value e server_id), names, fetch_trace e server_id).
Proof.
  unfold fetch_value, fetch_trace, _fetch_server_info, bind, emit, log, ret.
  destruct (http e server_id) as [| |status [data|]]; simpl; try reflexivity.
  - destruct (Z.eqb status 200); [|destruct (Z.eqb status 429); reflexivity].
    destruct (Py.get data "data" (PDict [])); reflexivity.
  - destruct (Z.eqb status 200); [|destruct (Z.eqb status 429)]; reflexivity.
Qed.

Lemma fetch_value_cases (e : env) (server_id : string) :
  fetch_value e server_id =
  match http e server_id with
  | Response status (Some (PDict d)) =>
      if Z.eqb status 200 then dict_get d "data" (PDict []) else PNone
  | _ => PNone
  end.
Proof.
  unfold fetch_value, _fetch_server_info, bind, emit, log, ret.
  destruct (http e server_id) as [| |status [data|]]; simpl; try reflexivity.
  - destruct (Z.eqb status 200) eqn:Hs.
    + destruct data; reflexivity.
    + destruct (Z.eqb status 429); destruct data; reflexivity.
  - destruct (Z.eqb status 200); [|destruct (Z.eqb status 429)]; reflexivity.
Qed.

(** C7, as amended: the fetch never raises; it gives the ["data"] member
    of the body when the status is 200 and the body decodes to a JSON
    object, and [None] in every other case: a timeout, a failed request,
    any status other than 200 (429 among them), and a 200 response whose
    body does not decode to an object. *)
Theorem fetch_payload_or_absent (e : env) (server_id : string) (names : gmap Z string) :
  exists v : pyval,
    _fetch_server_info e server_id names = (Ok v, names, fetch_trace e server_id) /\
    (forall d, http e server_id = Response 200 (Some (PDict d)) ->
               v = dict_get d "data" (PDict [])) /\
    (http e server_id = TimedOut -> v = PNone) /\
    (http e server_id = Failed -> v = PNone) /\
    (forall status json, http e server_id = Response status json ->
                         status <> 200%Z -> v = PNone) /\
    (forall status, http e server_id = Response status None -> v = PNone) /\
    (forall status data, http e server_id = Response status (Some data) ->
                         (forall d, data <> PDict d) -> v = PNone) /\
    (v <> PNone -> exists d, http e server_id = Response 200 (Some (PDict d))).
Proof.
  exists (fetch_value e server_id).
  split; [apply fetch_run|].
  rewrite fetch_value_cases.
  repeat split.
  - now intros d ->.
  - now intros ->.
  - now intros ->.
  - intros status json -> Hne.
    apply Z.eqb_neq in Hne. rewrite Hne.
    destruct json as [[]|]; reflexivity.
  - now intros status ->.
  - intros status data -> Hnot.
    destruct data; try reflexivity. now destruct (Hnot d).
  - destruct (http e server_id) as [| |status [data|]]; try congruence.
    destruct data; try congruence.
    destruct (Z.eqb_spec status 200) as [->|]; [|congruence].
    intros _. now exists d.
Qed.

(** ** The name of a channel in the background pass *)


(** C1: when the status of the snapshot is ["offline"], the formatting
    step of the background pass returns ["[OFFLINE] "] followed by the
    name stored in the entry when it has one and by the name of the
    snapshot otherwise, whatever the template is; the name applied is
    that text cut at 100 characters. *)
Theorem offline_name_bypasses_template (e : env) (template : string)
    (d attributes : list (string * pyval)) (info : pyval) :
  Py.get info "attributes" (PDict []) = Ok (PDict attributes) ->
  eq_str (dict_get attributes "status" (PStr "offline")) "offline" = true ->
  let label := match dict_lookup "name" d with
               | Some custom => custom
               | None => dict_get attributes "name" (PStr "Unknown")
               end in
  format_channel_name e template (PDict d) info = Ok ("[OFFLINE] " +:+ str label) /\
  desired_name e template (PDict d) info = Ok (slice_to 100 ("[OFFLINE] " +:+ str label)).
Proof.
  intros Hattr Hoff label.
  assert (Hf : format_channel_name e template (PDict d) info
               = Ok ("[OFFLINE] " +:+ str label)).
  { unfold format_channel_name. rewrite Hattr. simpl. rewrite Hoff. reflexivity. }
  split; [exact Hf|]. unfold desired_name. now rewrite Hf.
Qed.


Lemma update_entry_normal (e : env) (g : guild) (template server_id : string)
    (server_data : pyval) (names : gmap Z string) :
  update_entry e g template server_id server_data names =
  entry_normal e g template server_id server_data names.
Proof.
  unfold update_entry, entry_normal, resolve.
  destruct (Py.get server_data "channel_id" PNone) as [channel_id|x]; [|reflexivity].
  cbv [bind lift ret throw].
  destruct (truthy channel_id); cbv [negb]; [|reflexivity].
  destruct (get_channel g channel_id names) as [[r names1] tr1] eqn:Hget.
  assert (Hsame : names1 = names /\ tr1 = []).
  { unfold get_channel in Hget. destruct channel_id; inversion Hget; auto. }
  destruct Hsame as [-> ->]. cbv [fst].
  destruct r as [[channel|]|x]; try reflexivity.
  rewrite fetch_run.
  destruct (truthy (fetch_value e server_id)); cbv [negb];
    [|now rewrite app_nil_r].
  destruct (desired_name e template server_data (fetch_value e server_id)) as [new_name|x];
    [|now rewrite app_nil_r].
  cbv [channel_name].
  destruct (String.eqb (default "" (names !! channel)) new_name).
  - reflexivity.
  - cbv [try_http channel_edit log sleep emit].
    destruct (edit_ok e channel new_name); reflexivity.
Qed.

(** ** The monad *)

Lemma bind_assoc {A B C} (m : M A) (k : A -> M B) (h : B -> M C) (names : gmap Z string) :
  bind (bind m k) h names = bind m (fun a => bind (k a) h) names.
Proof.
  unfold bind.
  destruct (m names) as [[[a|x] names1] tr1]; [|reflexivity].
  destruct (k a names1) as [[[b|x] names2] tr2]; [|reflexivity].
  destruct (h b names2) as [[r names3] tr3].
  now rewrite app_assoc.
Qed.

Lemma bind_ext {A B} (m : M A) (k k' : A -> M B) (names : gmap Z string) :
  (forall a names1, k a names1 = k' a names1) ->
  bind m k names = bind m k' names.
Proof.
  intros Hk. unfold bind.
  destruct (m names) as [[[a|x] names1] tr1]; [|reflexivity].
  now rewrite Hk.
Qed.

Lemma for_each_app {V} (body : V -> M unit) (l1 l2 : list V) (names : gmap Z string) :
  for_each body (l1 ++ l2) names =
  bind (for_each body l1) (fun _ => for_each body l2) names.
Proof.
  revert names; induction l1 as [|v l1 IH]; intros names; simpl.
  - unfold bind, ret. now destruct (for_each body l2 names) as [[r n] t].
  - rewrite bind_assoc. apply bind_ext. intros _ names1. apply IH.
Qed.

Lemma for_items_as_for_each {K V} (body : K -> V -> M unit) (items : list (K * V))
    (names : gmap Z string) :
  for_items body items names = for_each (fun kv => body (fst kv) (snd kv)) items names.
Proof.
  revert names; induction items as [|[k v] items IH]; intros names; simpl; [reflexivity|].
  unfold bind. destruct (body k v names) as [[[[]|x] names1] tr1]; [|reflexivity].
  now rewrite IH.
Qed.

Lemma for_each_map {U V} (f : U -> V) (body : V -> M unit) (l : list U)
    (names : gmap Z string) :
  for_each body (List.map f l) names = for_each (fun u => body (f u)) l names.
Proof.
  revert names; induction l as [|u l IH]; intros names; simpl; [reflexivity|].
  unfold bind. destruct (body (f u) names) as [[[[]|x] names1] tr1]; [|reflexivity].
  now rewrite IH.
Qed.

Lemma update_guild_as_jobs (e : env) (g : guild) (names : gmap Z string) :
  update_guild e g names = for_each (run_job e) (List.map (pair g) (servers g)) names.
Proof.
  unfold update_guild. rewrite for_each_map.
  destruct (servers g) as [|kv rest] eqn:Hs; [reflexivity|].
  now rewrite for_items_as_for_each.
Qed.

(** The pass over all guilds is the run of its jobs. *)
Lemma update_all_as_jobs (e : env) (guilds : list guild) (names : gmap Z string) :
  _update_all_channels e guilds names = for_each (run_job e) (jobs_of guilds) names.
Proof.
  unfold _update_all_channels, jobs_of.
  revert names; induction guilds as [|g guilds IH]; intros names; simpl; [reflexivity|].
  rewrite for_each_app. unfold bind.
  rewrite update_guild_as_jobs.
  destruct (for_each (run_job e) (List.map (pair g) (servers g)) names)
    as [[[[]|x] names1] tr1]; [|reflexivity].
  now rewrite IH.
Qed.

Lemma run_cons (e : env) (j : job) (js : list job) (names : gmap Z string) :
  for_each (run_job e) (j :: js) names =
  match run_job e j names with
  | (Ok _, names1, tr1) =>
      match for_each (run_job e) js names1 with
      | (r, names2, tr2) => (r, names2, tr1 ++ tr2)
      end
  | (Raise x, names1, tr1) => (Raise x, names1, tr1)
  end.
Proof. reflexivity. Qed.

Lemma run_job_normal (e : env) (j : job) (names : gmap Z string) :
  run_job e j names =
  entry_normal e (fst j) (channel_format (fst j)) (fst (snd j)) (snd (snd j)) names.
Proof. apply update_entry_normal. Qed.

(** ** One entry of the background pass *)

Lemma cached_some (g : guild) (names : gmap Z string) (z ch : Z) :
  cached g names z = Some ch -> ch = z /\ z ∈ channels g /\ is_Some (names !! z).
Proof.
  unfold cached. destruct (decide (z ∈ channels g)); [|discriminate].
  destruct (names !! z) eqn:Hz; [|discriminate].
  intros [= <-]. repeat split; eauto.
Qed.

Lemma cached_agree (g : guild) (A C : gmap Z string) (z : Z) :
  (is_Some (A !! z) <-> is_Some (C !! z)) -> cached g A z = cached g C z.
Proof.
  intros Hiff. unfold cached. destruct (decide (z ∈ channels g)); [|reflexivity].
  destruct (A !! z) eqn:Ha, (C !! z) eqn:Hc; try reflexivity.
  - destruct Hiff as [Hiff _]. destruct Hiff as [? ?]; [eauto | discriminate].
  - destruct Hiff as [_ Hiff]. destruct Hiff as [? ?]; [eauto | discriminate].
Qed.

Lemma resolve_some (g : guild) (names : gmap Z string) (server_data : pyval) (ch : Z) :
  resolve g names server_data = Ok (Some ch) ->
  entry_channel_id server_data = Some ch /\ ch ∈ channels g /\ is_Some (names !! ch).
Proof.
  unfold resolve, entry_channel_id, Py.get.
  destruct server_data as [| | | | |d]; try discriminate.
  destruct (dict_get d "channel_id" PNone) as [|[]|z|s|l|d']; simpl; try discriminate.
  - intros [= H]. apply cached_some in H as (-> & ? & ?). auto.
  - destruct (Z.eqb z 0); simpl; [discriminate|].
    intros [= H]. apply cached_some in H as (-> & ? & ?). auto.
  - destruct (String.eqb s ""); simpl; discriminate.
  - destruct l; simpl; discriminate.
  - destruct d'; simpl; discriminate.
Qed.

Lemma resolve_agree (g : guild) (A C : gmap Z string) (server_data : pyval) :
  (forall ch, entry_channel_id server_data = Some ch ->
              (is_Some (A !! ch) <-> is_Some (C !! ch))) ->
  resolve g A server_data = resolve g C server_data.
Proof.
  unfold resolve, entry_channel_id, Py.get.
  destruct server_data as [| | | | |d]; try reflexivity.
  destruct (dict_get d "channel_id" PNone) as [|[]|z|s|l|d']; simpl; try reflexivity.
  - intros H. now rewrite (cached_agree g A C 1 (H _ eq_refl)).
  - destruct (Z.eqb z 0); simpl; [reflexivity|].
    intros H. now rewrite (cached_agree g A C z (H _ eq_refl)).
Qed.

Lemma fetch_trace_cases (e : env) (server_id : string) :
  exists auth logs,
    fetch_trace e server_id = EGet server_id auth :: logs /\
    (logs = [] \/ exists l, logs = [ELog l]).
Proof.
  unfold fetch_trace, _fetch_server_info, bind, emit, log, ret.
  eexists.
  destruct (http e server_id) as [| |status [data|]]; simpl.
  - eexists; split; [reflexivity|]; eauto.
  - eexists; split; [reflexivity|]; eauto.
  - destruct (Z.eqb status 200).
    + destruct (Py.get data "data" (PDict [])); simpl;
        eexists; (split; [reflexivity|]); eauto.
    + destruct (Z.eqb status 429); simpl; eexists; (split; [reflexivity|]); eauto.
  - destruct (Z.eqb status 200); [|destruct (Z.eqb status 429)]; simpl;
      eexists; (split; [reflexivity|]); eauto.
Qed.

Lemma fetch_trace_quiet (e : env) (server_id : string) (ev : event) :
  In ev (fetch_trace e server_id) -> is_edit ev = false /\ is_sleep ev = false.
Proof.
  destruct (fetch_trace_cases e server_id) as (auth & logs & -> & Hlogs).
  intros [<-|Hin]; [auto|].
  destruct Hlogs as [->|[l ->]]; [destruct Hin|].
  destruct Hin as [<-|[]]; auto.
Qed.



(** What one entry does to the channel names: nothing outside its own
    channel, and no channel appears or disappears. *)
Lemma entry_frame (e : env) (g : guild) (template server_id : string)
    (server_data : pyval) (A A' : gmap Z string) (r : result unit) (tr : list event) :
  entry_normal e g template server_id server_data A = (r, A', tr) ->
  (forall z, entry_channel_id server_data <> Some z -> A' !! z = A !! z) /\
  (forall z, is_Some (A' !! z) <-> is_Some (A !! z)).
Proof.
  unfold entry_normal.
  destruct (resolve g A server_data) as [[ch|]|x] eqn:Hres;
    try (intros [= <- <- <-]; split; intros; reflexivity).
  apply resolve_some in Hres as (Hid & Hin & Hsome).
  destruct (negb (truthy (fetch_value e server_id)));
    try (intros [= <- <- <-]; split; intros; reflexivity).
  destruct (desired_name e template server_data (fetch_value e server_id)) as [nm|x];
    try (intros [= <- <- <-]; split; intros; reflexivity).
  destruct (String.eqb (default "" (A !! ch)) nm);
    try (intros [= <- <- <-]; split; intros; reflexivity).
  destruct (edit_ok e ch nm);
    try (intros [= <- <- <-]; split; intros; reflexivity).
  intros [= <- <- <-]. split.
  - intros z Hz. apply lookup_insert_ne. congruence.
  - intros z. destruct (decide (ch = z)) as [<-|Hne].
    + rewrite lookup_insert_eq. split; eauto.
    + now rewrite lookup_insert_ne.
Qed.


(** ** Two passes in a row *)

Lemma job_channel_ids_cons (j : job) (js : list job) :
  job_channel_ids (j :: js) =
  match entry_channel_id (snd (snd j)) with
  | Some z => z :: job_channel_ids js
  | None => job_channel_ids js
  end.
Proof. reflexivity. Qed.

Lemma run_frame (e : env) (js : list job) :
  forall (A B : gmap Z string) (r : result unit) (t : list event),
    for_each (run_job e) js A = (r, B, t) ->
    forall z, ~ In z (job_channel_ids js) -> B !! z = A !! z.
Proof.
  induction js as [|j js IH]; intros A B r t Hrun z Hz.
  - now injection Hrun as <- <- <-.
  - rewrite run_cons, run_job_normal in Hrun.
    destruct (entry_normal e (fst j) (channel_format (fst j)) (fst (snd j))
                (snd (snd j)) A) as [[ra A'] ta] eqn:Ha.
    apply entry_frame in Ha as [Hframe _].
    rewrite job_channel_ids_cons in Hz.
    assert (Hhead : entry_channel_id (snd (snd j)) <> Some z).
    { intros Heq. rewrite Heq in Hz. apply Hz. now left. }
    assert (Htail : ~ In z (job_channel_ids js)).
    { intros Hin. apply Hz. destruct (entry_channel_id (snd (snd j))); [now right | exact Hin]. }
    destruct ra as [[]|x].
    + destruct (for_each (run_job e) js A') as [[rb B'] tb] eqn:Hb.
      injection Hrun as <- <- <-.
      rewrite (IH _ _ _ _ Hb z Htail). now apply Hframe.
    + injection Hrun as <- <- <-. now apply Hframe.
Qed.




(** ** Failures inside a pass *)








(** ** The pacing delay *)

Lemma fetch_trace_no_sleep (e : env) (server_id : string) :
  List.filter is_sleep (fetch_trace e server_id) = [].
Proof.
  destruct (fetch_trace_cases e server_id) as (auth & logs & -> & [->|[l ->]]);
    reflexivity.
Qed.

Lemma entry_sleeps (e : env) (j : job) (A A' : gmap Z string) (r : result unit)
    (t : list event) :
  entry_normal e (fst j) (channel_format (fst j)) (fst (snd j)) (snd (snd j)) A
    = (r, A', t) ->
  List.filter is_sleep t = if reaches_apply e A j then [ESleep 2] else [].
Proof.
  unfold entry_normal, reaches_apply.
  destruct (resolve (fst j) A (snd (snd j))) as [[ch|]|x];
    try (intros [= <- <- <-]; reflexivity).
  destruct (truthy (fetch_value e (fst (snd j)))); simpl negb; cbv iota;
    [|intros [= <- <- <-]; apply fetch_trace_no_sleep].
  destruct (desired_name e (channel_format (fst j)) (snd (snd j))
              (fetch_value e (fst (snd j)))) as [nm|x];
    [|intros [= <- <- <-]; apply fetch_trace_no_sleep].
  destruct (String.eqb (default "" (A !! ch)) nm); [|destruct (edit_ok e ch nm)];
    intros [= <- <- <-]; rewrite List.filter_app, fetch_trace_no_sleep; reflexivity.
Qed.

Lemma reaches_apply_same_channels (e : env) (A A' : gmap Z string) (j : job) :
  (forall z, is_Some (A' !! z) <-> is_Some (A !! z)) ->
  reaches_apply e A' j = reaches_apply e A j.
Proof.
  intros Hdom. unfold reaches_apply.
  rewrite (resolve_agree (fst j) A' A (snd (snd j))); [reflexivity|].
  intros ch _. apply Hdom.
Qed.

Lemma run_sleeps (e : env) (js : list job) :
  forall (A B : gmap Z string) (t : list event),
    for_each (run_job e) js A = (Ok tt, B, t) ->
    List.filter is_sleep t
    = List.repeat (ESleep 2) (List.length (List.filter (reaches_apply e A) js)).
Proof.
  induction js as [|j js IH]; intros A B t Hrun.
  - injection Hrun as <- <-. reflexivity.
  - rewrite run_cons, run_job_normal in Hrun.
    destruct (entry_normal e (fst j) (channel_format (fst j)) (fst (snd j))
                (snd (snd j)) A) as [[ra A'] ta] eqn:Ha.
    destruct ra as [[]|x]; [|discriminate].
    destruct (for_each (run_job e) js A') as [[rb B'] tb] eqn:Hb.
    assert (Hrb : rb = Ok tt) by congruence. subst rb.
    assert (Ht : t = ta ++ tb) by congruence. subst t.
    rewrite List.filter_app, (entry_sleeps e j A A' _ ta Ha), (IH A' B' tb Hb).
    apply entry_frame in Ha as [_ Hdom].
    rewrite (List.filter_ext (reaches_apply e A') (reaches_apply e A))
      by (intros j'; now apply reaches_apply_same_channels).
    simpl List.filter. destruct (reaches_apply e A j); reflexivity.
Qed.

(** C5: an entry that reaches the apply step ends with the 2-second
    delay, whether its channel already bore the name, was renamed, or the
    rename was rejected; an entry whose fetch returns nothing makes the
    request and no delay; and a pass that ends normally has slept exactly
    once, for 2 seconds, for each entry that reached the apply step. *)
Theorem pacing_delay_follows_apply :
  (forall (e : env) (g : guild) (template server_id : string) (server_data : pyval)
          (names : gmap Z string) (ch : Z) (nm : string),
      resolve g names server_data = Ok (Some ch) ->
      truthy (fetch_value e server_id) = true ->
      desired_name e template server_data (fetch_value e server_id) = Ok nm ->
      exists names' applied,
        update_entry e g template server_id server_data names
          = (Ok tt, names', fetch_trace e server_id ++ applied ++ [ESleep 2]) /\
        ((applied = [] /\ names !! ch = Some nm /\ names' = names) \/
         (applied = [EEdit ch nm true; ELog LDebug] /\ names !! ch <> Some nm /\
          edit_ok e ch nm = true /\ names' = <[ch := nm]> names) \/
         (applied = [EEdit ch nm false; ELog LError] /\ names !! ch <> Some nm /\
          edit_ok e ch nm = false /\ names' = names))) /\
  (forall (e : env) (g : guild) (template server_id : string) (server_data : pyval)
          (names : gmap Z string) (ch : Z),
      resolve g names server_data = Ok (Some ch) ->
      truthy (fetch_value e server_id) = false ->
      update_entry e g template server_id server_data names
        = (Ok tt, names, fetch_trace e server_id) /\
      forall ev, In ev (fetch_trace e server_id) -> is_sleep ev = false) /\
  (forall (e : env) (guilds : list guild) (names names' : gmap Z string)
          (tr : list event),
      _update_all_channels e guilds names = (Ok tt, names', tr) ->
      List.filter is_sleep tr
      = List.repeat (ESleep 2)
          (List.length (List.filter (reaches_apply e names) (jobs_of guilds)))).
Proof.
  split; [|split].
  - intros e g template server_id server_data names ch nm Hres Hinfo Hname.
    rewrite update_entry_normal. unfold entry_normal.
    rewrite Hres, Hinfo, Hname. simpl negb. cbv iota.
    apply resolve_some in Hres as (_ & _ & [cur Hcur]).
    rewrite Hcur. simpl default.
    destruct (String.eqb_spec cur nm) as [->|Hne].
    + exists names, []. split; [reflexivity|]. left. auto.
    + assert (Hdiff : Some cur <> Some nm) by congruence.
      destruct (edit_ok e ch nm) eqn:Hok.
      * eexists; exists [EEdit ch nm true; ELog LDebug]. split; [reflexivity|].
        right. left. auto.
      * eexists; exists [EEdit ch nm false; ELog LError]. split; [reflexivity|].
        right. right. auto.
  - intros e g template server_id server_data names ch Hres Hinfo. split.
    + rewrite update_entry_normal. unfold entry_normal. now rewrite Hres, Hinfo.
    + intros ev Hin. now apply fetch_trace_quiet in Hin.
  - intros e guilds names names' tr Hrun.
    rewrite update_all_as_jobs in Hrun. now apply run_sleeps in Hrun.
Qed.

Lemma pacing_delay_follows_apply_witness :
  let g := sample_guild default_format [] in
  (exists names' applied,
      update_entry rejecting_env g default_format "A" (entry 10 "My Alpha") sample_names
        = (Ok tt, names', fetch_trace rejecting_env "A" ++ applied ++ [ESleep 2])) /\
  update_entry sample_env g default_format "C" (entry 12 "Gamma") sample_names
    = (Ok tt, sample_names, fetch_trace sample_env "C").
Proof.
  intros g. split.
  - destruct (proj1 pacing_delay_follows_apply rejecting_env g default_format "A"
                (entry 10 "My Alpha") sample_names 10%Z "[12/64] My Alpha")
      as (names' & applied & Hrun & _); try (vm_compute; reflexivity).
    exists names', applied. exact Hrun.
  - apply (proj1 (proj2 pacing_delay_follows_apply) sample_env g default_format "C"
             (entry 12 "Gamma") sample_names 12%Z); vm_compute; reflexivity.
Defined.

(** ** A channel that no longer exists *)

(** C6, as amended: for an entry whose channel does not resolve (no
    channel id, or no such channel in the guild), the pass makes no
    call at all: no fetch, no rename, no delay; it goes on with the next
    entry. *)
Theorem missing_channel_skips_the_fetch (e : env) (g : guild)
    (template server_id : string) (server_data : pyval) (names : gmap Z string)
    (rest : list (string * pyval)) :
  resolve g names server_data = Ok None ->
  update_entry e g template server_id server_data names = (Ok tt, names, []) /\
  for_items (update_entry e g template) ((server_id, server_data) :: rest) names
    = for_items (update_entry e g template) rest names.
Proof.
  intros Hres.
  assert (Hrun : update_entry e g template server_id server_data names = (Ok tt, names, [])).
  { rewrite update_entry_normal. unfold entry_normal. now rewrite Hres. }
  split; [exact Hrun|].
  simpl. unfold bind. rewrite Hrun.
  now destruct (for_items (update_entry e g template) rest names) as [[r n] t].
Qed.

Lemma missing_channel_skips_the_fetch_witness :
  let g := sample_guild default_format [("Z", entry 99 "Gone"); ("A", entry 10 "My Alpha")] in
  resolve g sample_names (entry 99 "Gone") = Ok None /\
  update_entry sample_env g default_format "Z" (entry 99 "Gone") sample_names
    = (Ok tt, sample_names, []).
Proof.
  intros g.
  assert (Hres : resolve g sample_names (entry 99 "Gone") = Ok None)
    by (vm_compute; reflexivity).
  split; [exact Hres|].
  exact (proj1 (missing_channel_skips_the_fetch sample_env g default_format "Z"
                  (entry 99 "Gone") sample_names [] Hres)).
Defined.

(** C6 as stated fails: the entry ["Z"] points to a channel that is not in
    the guild, and the pass never requests server ["Z"]. *)
Lemma missing_channel_is_not_fetched :
  let g := sample_guild default_format [("Z", entry 99 "Gone"); ("A", entry 10 "My Alpha")] in
  resolve g sample_names (entry 99 "Gone") = Ok None /\
  snd (_update_all_channels sample_env [g] sample_names)
    = [EGet "A" None; EEdit 10 "[12/64] My Alpha" true; ELog LDebug; ESleep 2] /\
  ~ exists auth, In (EGet "Z" auth) (snd (_update_all_channels sample_env [g] sample_names)).
Proof.
  intros g. split; [vm_compute; reflexivity|]. split; [vm_compute; reflexivity|].
  intros [auth Hin]. vm_compute in Hin.
  destruct Hin as [Hin|[Hin|[Hin|[Hin|[]]]]]; discriminate.
Qed.

(** ** Witnesses and counterexamples for the fetch and the formatter *)

Lemma fetch_payload_or_absent_witness :
  _fetch_server_info sample_env "A" sample_names
    = (Ok (snapshot 12 64 "Alpha" "online"), sample_names, [EGet "A" None]) /\
  _fetch_server_info sample_env "D" sample_names
    = (Ok PNone, sample_names, [EGet "D" None; ELog LWarning]).
Proof.
  split.
  - destruct (fetch_payload_or_absent sample_env "A" sample_names)
      as (v & Hrun & Hdata & _).
    rewrite Hrun.
    rewrite (Hdata [("data", snapshot 12 64 "Alpha" "online")] eq_refl).
    reflexivity.
  - destruct (fetch_payload_or_absent sample_env "D" sample_names)
      as (v & Hrun & _ & _ & _ & Hstatus & _).
    rewrite Hrun. rewrite (Hstatus 429%Z None eq_refl); [reflexivity|].
    intros H; discriminate H.
Defined.

(** C7 as stated fails: a response with status 200 whose body is a JSON
    array, or is not JSON at all, yields [None]. *)
Lemma ok_status_without_payload :
  http sample_env "E" = Response 200 (Some (PList [])) /\
  _fetch_server_info sample_env "E" sample_names
    = (Ok PNone, sample_names, [EGet "E" None; ELog LError]) /\
  http sample_env "F" = Response 200 None /\
  _fetch_server_info sample_env "F" sample_names
    = (Ok PNone, sample_names, [EGet "F" None; ELog LError]).
Proof. repeat split; vm_compute; reflexivity. Qed.

Lemma offline_name_bypasses_template_witness :
  format_channel_name sample_env "{players} of {max}" (entry 11 "My Server")
    (snapshot 0 64 "Beta" "offline")
  = Ok "[OFFLINE] My Server" /\
  format_channel_name sample_env "{nonsense" (PDict [("channel_id", PInt 11)])
    (snapshot 0 64 "Beta" "offline")
  = Ok "[OFFLINE] Beta".
Proof.
  split.
  - apply (offline_name_bypasses_template sample_env "{players} of {max}"
             [("channel_id", PInt 11); ("name", PStr "My Server");
              ("added_by", PInt 7); ("added_at", PStr "2024-01-01T00:00:00")]
             [("name", PStr "Beta"); ("players", PInt 0);
              ("maxPlayers", PInt 64); ("status", PStr "offline")]
             (snapshot 0 64 "Beta" "offline")); reflexivity.
  - apply (offline_name_bypasses_template sample_env "{nonsense"
             [("channel_id", PInt 11)]
             [("name", PStr "Beta"); ("players", PInt 0);
              ("maxPlayers", PInt 64); ("status", PStr "offline")]
             (snapshot 0 64 "Beta" "offline")); reflexivity.
Defined.



(** A field written [{name}] after brace-free text is found by the
    scanner under its name, and a name that is not a keyword argument
    makes [format] raise [KeyError] with that name. *)
Lemma format_braced_unknown_name (ext : StrFormat.extended_render)
    (kwargs : list (string * pyval)) (pre nm rest : string) :
  all_chars not_brace pre = true ->
  all_chars name_char nm = true ->
  get_integer nm = NotInteger ->
  dict_lookup nm kwargs = None ->
  In nm (field_args (pre +:+ String "{" (nm +:+ String "}" rest))) /\
  StrFormat.format ext (pre +:+ String "{" (nm +:+ String "}" rest)) kwargs
    = Raise (KeyError nm).
Proof.
  intros Hpre Hnm Hint Hnone.
  unfold field_args, StrFormat.format, tokens.
  rewrite (scan_text pre _ Hpre), (scan_field nm rest Hnm).
  split.
  - apply in_flat_map. exists (mk_field nm None ""). split.
    + apply in_or_app. right. now left.
    + simpl. rewrite (split_first_plain nm Hnm). now left.
  - rewrite render_chars. simpl render.
    rewrite render_field_key_error; simpl; rewrite (split_first_plain nm Hnm);
      simpl; auto.
Qed.

(** ** The [refresh] command against the background pass *)

Lemma resolve_steps (g : guild) (names : gmap Z string) (server_data : pyval) (ch : Z) :
  resolve g names server_data = Ok (Some ch) ->
  exists channel_id,
    Py.get server_data "channel_id" PNone = Ok channel_id /\
    truthy channel_id = true /\
    get_channel g channel_id names = (Ok (Some ch), names, []).
Proof.
  unfold resolve.
  destruct (Py.get server_data "channel_id" PNone) as [channel_id|x]; [|discriminate].
  destruct (truthy channel_id) eqn:Ht; simpl; [|discriminate].
  intros H. exists channel_id. repeat split; auto.
  unfold get_channel in *. destruct channel_id; simpl in H; try discriminate;
    injection H as H; now rewrite H.
Qed.

Lemma refresh_entry_applies (e : env) (g : guild) (template server_id : string)
    (server_data : pyval) (names : gmap Z string) (updated failed : nat)
    (ch : Z) (nm : string) :
  resolve g names server_data = Ok (Some ch) ->
  truthy (fetch_value e server_id) = true ->
  refresh_channel_name e template server_data (fetch_value e server_id) = Ok nm ->
  refresh_entry e g template (updated, failed) server_id server_data names =
  if edit_ok e ch nm
  then (Ok (S updated, failed), <[ch := nm]> names,
        fetch_trace e server_id ++ [EEdit ch nm true; ESleep 2])
  else (Ok (updated, S failed), names,
        fetch_trace e server_id ++ [EEdit ch nm false; ESleep 2]).
Proof.
  intros Hres Hinfo Hname.
  apply resolve_steps in Hres as (channel_id & Hid & Htruthy & Hget).
  unfold refresh_entry. rewrite Hid.
  cbv [bind lift ret throw]. rewrite Htruthy. cbv [negb].
  rewrite Hget, fetch_run, Hinfo. cbv [negb]. rewrite Hname.
  cbv [try_http channel_edit sleep emit].
  destruct (edit_ok e ch nm); reflexivity.
Qed.

(** C9, as amended: for an entry that has a stored name, the [refresh]
    command computes the same name as the background pass, cut at 100
    characters, whenever the snapshot is not offline or the offline label
    has at most 100 characters; unlike the background pass it sends the
    rename whether or not the channel already bears that name, and it
    counts: an accepted rename adds one to "updated", a rejected rename
    and a fetch that returns nothing each add one to "failed". *)
Theorem refresh_agrees_on_names_not_on_policy :
  (forall (e : env) (template : string) (d : list (string * pyval)) (info custom : pyval),
      dict_lookup "name" d = Some custom ->
      (forall attributes,
          Py.get info "attributes" (PDict []) = Ok (PDict attributes) ->
          eq_str (dict_get attributes "status" (PStr "offline")) "offline" = true ->
          String.length ("[OFFLINE] " +:+ str custom) <= 100) ->
      refresh_channel_name e template (PDict d) info
        = desired_name e template (PDict d) info) /\
  (forall (e : env) (g : guild) (template server_id : string) (server_data : pyval)
          (names : gmap Z string) (updated failed : nat) (ch : Z) (nm : string),
      resolve g names server_data = Ok (Some ch) ->
      truthy (fetch_value e server_id) = true ->
      refresh_channel_name e template server_data (fetch_value e server_id) = Ok nm ->
      refresh_entry e g template (updated, failed) server_id server_data names
      = if edit_ok e ch nm
        then (Ok (S updated, failed), <[ch := nm]> names,
              fetch_trace e server_id ++ [EEdit ch nm true; ESleep 2])
        else (Ok (updated, S failed), names,
              fetch_trace e server_id ++ [EEdit ch nm false; ESleep 2])) /\
  (forall (e : env) (g : guild) (template server_id : string) (server_data : pyval)
          (names : gmap Z string) (updated failed : nat) (ch : Z),
      resolve g names server_data = Ok (Some ch) ->
      truthy (fetch_value e server_id) = false ->
      refresh_entry e g template (updated, failed) server_id server_data names
      = (Ok (updated, S failed), names, fetch_trace e server_id)).
Proof.
  split; [|split].
  - intros e template d info custom Hname Hshort.
    unfold refresh_channel_name, desired_name, format_channel_name.
    destruct (Py.get info "attributes" (PDict [])) as [attributes|x]; [|reflexivity].
    destruct attributes as [| | | | |a]; try reflexivity.
    specialize (Hshort a eq_refl).
    assert (Hd : forall x, dict_get d "name" x = custom).
    { intros x. unfold dict_get. now rewrite Hname. }
    cbv [Py.get]. rewrite !Hd.
    destruct (eq_str (dict_get a "status" (PStr "offline")) "offline").
    + now rewrite (slice_to_short 100 _ (Hshort eq_refl)).
    + reflexivity.
  - intros e g template server_id server_data names updated failed ch nm
           Hres Hinfo Hname.
    exact (refresh_entry_applies e g template server_id server_data names
             updated failed ch nm Hres Hinfo Hname).
  - intros e g template server_id server_data names updated failed ch Hres Hinfo.
    apply resolve_steps in Hres as (channel_id & Hid & Htruthy & Hget).
    unfold refresh_entry. rewrite Hid.
    cbv [bind lift ret throw]. rewrite Htruthy. cbv [negb].
    rewrite Hget, fetch_run, Hinfo. cbv [negb].
    now rewrite app_nil_r.
Qed.

Lemma refresh_agrees_on_names_not_on_policy_witness :
  let g := sample_guild default_format [] in
  refresh_channel_name sample_env default_format (entry 10 "My Alpha")
    (snapshot 12 64 "Alpha" "online")
  = desired_name sample_env default_format (entry 10 "My Alpha")
      (snapshot 12 64 "Alpha" "online") /\
  refresh_entry sample_env g default_format (3, 4) "A" (entry 10 "My Alpha")
    (<[10%Z := "[12/64] My Alpha"]> sample_names)
  = (Ok (4, 4), <[10%Z := "[12/64] My Alpha"]> (<[10%Z := "[12/64] My Alpha"]> sample_names),
     fetch_trace sample_env "A" ++ [EEdit 10 "[12/64] My Alpha" true; ESleep 2]) /\
  refresh_entry rejecting_env g default_format (3, 4) "A" (entry 10 "My Alpha")
    sample_names
  = (Ok (3, 5), sample_names,
     fetch_trace rejecting_env "A" ++ [EEdit 10 "[12/64] My Alpha" false; ESleep 2]) /\
  refresh_entry sample_env g default_format (3, 4) "C" (entry 12 "Gamma") sample_names
  = (Ok (3, 5), sample_names, fetch_trace sample_env "C").
Proof.
  intros g. split; [|split; [|split]].
  - apply (proj1 refresh_agrees_on_names_not_on_policy sample_env default_format
             [("channel_id", PInt 10); ("name", PStr "My Alpha");
              ("added_by", PInt 7); ("added_at", PStr "2024-01-01T00:00:00")]
             (snapshot 12 64 "Alpha" "online") (PStr "My Alpha")).
    + reflexivity.
    + intros attributes _ _. apply Nat.leb_le. vm_compute. reflexivity.
  - apply (proj1 (proj2 refresh_agrees_on_names_not_on_policy) sample_env g
             default_format "A" (entry 10 "My Alpha")
             (<[10%Z := "[12/64] My Alpha"]> sample_names) 3 4 10%Z "[12/64] My Alpha");
      vm_compute; reflexivity.
  - apply (proj1 (proj2 refresh_agrees_on_names_not_on_policy) rejecting_env g
             default_format "A" (entry 10 "My Alpha") sample_names 3 4 10%Z
             "[12/64] My Alpha"); vm_compute; reflexivity.
  - apply (proj2 (proj2 refresh_agrees_on_names_not_on_policy) sample_env g
             default_format "C" (entry 12 "Gamma") sample_names 3 4 12%Z);
      vm_compute; reflexivity.
Defined.

(** C9 as stated fails: on a channel that already bears the computed
    name, the background pass sends no rename and [refresh] sends one. *)
Lemma refresh_renames_an_unchanged_channel :
  let g := sample_guild default_format [("A", entry 10 "My Alpha")] in
  let names := <[10%Z := "[12/64] My Alpha"]> sample_names in
  snd (_update_all_channels sample_env [g] names) = [EGet "A" None; ESleep 2] /\
  snd (refresh_servers sample_env g names)
    = [ESend Refreshing; EGet "A" None; EEdit 10 "[12/64] My Alpha" true; ESleep 2;
       ESend (RefreshComplete 1 0)].
Proof. intros g names. split; vm_compute; reflexivity. Qed.

(** ** Truncation *)

(** The name applied by the background pass is the formatted name cut at
    100 characters, in the offline branch as in the other. *)
Lemma background_name_is_cut (e : env) (template : string) (server_data info : pyval)
    (nm : string) :
  desired_name e template server_data info = Ok nm ->
  exists full rest,
    format_channel_name e template server_data info = Ok full /\
    nm = slice_to 100 full /\
    full = nm +:+ rest /\
    String.length nm <= 100 /\
    (100 < String.length full -> String.length nm = 100).
Proof.
  unfold desired_name.
  destruct (format_channel_name e template server_data info) as [full|x]; [|discriminate].
  intros H. assert (Hnm : nm = slice_to 100 full) by congruence.
  clear H. subst nm. destruct (slice_to_prefix 100 full) as [rest Hrest].
  exists full, rest.
  split; [reflexivity|]. split; [reflexivity|]. split; [exact Hrest|]. split.
  - rewrite slice_to_length. lia.
  - apply slice_to_long.
Qed.

(** C2, at the failing input: for an offline server whose stored name has
    100 characters, [refresh] asks Discord for a name of 110 characters,
    where the background pass asks for its first 100. *)
Theorem refresh_offline_name_is_not_cut :
  let g := sample_guild default_format [("B", entry 11 long_name)] in
  refresh_channel_name sample_env default_format (entry 11 long_name)
    (snapshot 0 64 "Beta" "offline") = Ok ("[OFFLINE] " +:+ long_name) /\
  String.length ("[OFFLINE] " +:+ long_name) = 110 /\
  desired_name sample_env default_format (entry 11 long_name)
    (snapshot 0 64 "Beta" "offline") = Ok (slice_to 100 ("[OFFLINE] " +:+ long_name)) /\
  snd (refresh_servers sample_env g sample_names)
    = [ESend Refreshing; EGet "B" None; EEdit 11 ("[OFFLINE] " +:+ long_name) true;
       ESleep 2; ESend (RefreshComplete 1 0)] /\
  snd (_update_all_channels sample_env [g] sample_names)
    = [EGet "B" None; EEdit 11 (slice_to 100 ("[OFFLINE] " +:+ long_name)) true;
       ELog LDebug; ESleep 2].
Proof. intros g. repeat split; vm_compute; reflexivity. Qed.

(** ** The [add] command *)

Lemma add_server_name_same (custom_name : option string)
    (a a' : list (string * pyval)) :
  dict_lookup "name" a = dict_lookup "name" a' ->
  add_server_name custom_name (PDict a) = add_server_name custom_name (PDict a').
Proof.
  intros H. unfold add_server_name, Py.get, dict_get. rewrite H. reflexivity.
Qed.

Lemma add_channel_name_same (e e' : env) (template : string)
    (custom_name : option string) (info info' : pyval) (a a' : list (string * pyval)) :
  ext e' = ext e ->
  Py.get info "attributes" (PDict []) = Ok (PDict a) ->
  Py.get info' "attributes" (PDict []) = Ok (PDict a') ->
  (forall k, k <> "status" -> dict_lookup k a = dict_lookup k a') ->
  add_channel_name e' template custom_name info'
    = add_channel_name e template custom_name info.
Proof.
  intros Hext Ha Ha' Hsame.
  unfold add_channel_name. rewrite Ha, Ha', Hext.
  rewrite (add_server_name_same custom_name a a') by (apply Hsame; discriminate).
  cbv [Py.get dict_get].
  rewrite (Hsame "players") by discriminate.
  rewrite (Hsame "maxPlayers") by discriminate.
  reflexivity.
Qed.

(** ** Further properties of the background loop *)

Lemma loop_turn_total (e : env) (guilds : list guild) (names : gmap Z string) :
  exists names' t,
    loop_turn e guilds names = (Ok tt, names', t ++ [ESleep (update_interval e)]).
Proof.
  unfold loop_turn.
  destruct (_update_all_channels e guilds names) as [[[[]|x] names1] tr1].
  - now exists names1, tr1.
  - exists names1, (tr1 ++ [ELog LError]). now rewrite <- app_assoc.
Qed.

Lemma loop_turns_total (e : env) (guilds : list guild) (turns : nat) :
  forall names : gmap Z string,
  exists names' passes,
    loop_turns e guilds turns names
    = (Ok tt, names',
       concat (List.map (fun t => t ++ [ESleep (update_interval e)]) passes)) /\
    List.length passes = turns.
Proof.
  induction turns as [|n IH]; intros names.
  - exists names, []. split; reflexivity.
  - destruct (loop_turn_total e guilds names) as (names1 & t & Ht).
    destruct (IH names1) as (names2 & passes & Hrest & Hlen).
    exists names2, (t :: passes). split; [|simpl; now rewrite Hlen].
    simpl. unfold bind. now rewrite Ht, Hrest.
Qed.

(** X1: [_update_loop] never ends by an exception of a pass: whatever the
    passes do, after the initial 10 seconds every turn ends with the sleep
    of the configured interval and the next turn is run. *)
Theorem update_loop_keeps_going (e : env) (guilds : list guild) (turns : nat)
    (names : gmap Z string) :
  exists names' passes,
    _update_loop e guilds turns names
    = (Ok tt, names',
       ESleep 10
       :: concat (List.map (fun t => t ++ [ESleep (update_interval e)]) passes)) /\
    List.length passes = turns.
Proof.
  destruct (loop_turns_total e guilds turns names) as (names' & passes & Hrun & Hlen).
  exists names', passes. split; [|exact Hlen].
  unfold _update_loop, bind, sleep, emit. now rewrite Hrun.
Qed.

Lemma run_channels (e : env) (js : list job) :
  forall (A B : gmap Z string) (r : result unit) (t : list event),
    for_each (run_job e) js A = (r, B, t) ->
    forall z, is_Some (B !! z) <-> is_Some (A !! z).
Proof.
  induction js as [|j js IH]; intros A B r t Hrun z.
  - now injection Hrun as <- <- <-.
  - rewrite run_cons, run_job_normal in Hrun.
    destruct (entry_normal e (fst j) (channel_format (fst j)) (fst (snd j))
                (snd (snd j)) A) as [[ra A'] ta] eqn:Ha.
    apply entry_frame in Ha as [_ Hdom].
    destruct ra as [[]|x].
    + destruct (for_each (run_job e) js A') as [[rb B'] tb] eqn:Hb.
      injection Hrun as <- <- <-.
      rewrite (IH _ _ _ _ Hb z). apply Hdom.
    + injection Hrun as <- <- <-. apply Hdom.
Qed.

(** X2: a background pass, even one that an exception cuts short, only
    renames: no channel appears or disappears, and a channel that no
    tracked entry points to keeps its name. *)
Theorem pass_only_renames (e : env) (guilds : list guild) (names : gmap Z string) :
  let after := snd (fst (_update_all_channels e guilds names)) in
  (forall z, is_Some (after !! z) <-> is_Some (names !! z)) /\
  (forall z, ~ In z (job_channel_ids (jobs_of guilds)) -> after !! z = names !! z).
Proof.
  intros after. subst after. rewrite update_all_as_jobs.
  destruct (for_each (run_job e) (jobs_of guilds) names) as [[r B] t] eqn:Hrun.
  simpl. split.
  - now apply (run_channels e _ _ _ _ _ Hrun).
  - now apply (run_frame e _ _ _ _ _ Hrun).
Qed.

Lemma pass_only_renames_witness :
  let g := sample_guild default_format [("A", entry 10 "My Alpha")] in
  snd (fst (_update_all_channels sample_env [g] sample_names)) !! 11%Z
  = sample_names !! 11%Z.
Proof.
  intros g.
  apply (proj2 (pass_only_renames sample_env [g] sample_names) 11%Z).
  vm_compute. intros [H|[]]. discriminate H.
Defined.

Lemma desired_name_fits (e : env) (template : string) (server_data info : pyval)
    (nm : string) :
  desired_name e template server_data info = Ok nm -> String.length nm <= 100.
Proof.
  intros H. destruct (background_name_is_cut _ _ _ _ _ H) as (? & ? & _ & _ & _ & Hlen & _).
  exact Hlen.
Qed.

Lemma entry_edits (e : env) (g : guild) (template server_id : string)
    (server_data : pyval) (A A' : gmap Z string) (r : result unit) (t : list event)
    (c : Z) (n : string) (b : bool) :
  entry_normal e g template server_id server_data A = (r, A', t) ->
  In (EEdit c n b) t ->
  String.length n <= 100 /\ resolve g A server_data = Ok (Some c).
Proof.
  unfold entry_normal.
  destruct (resolve g A server_data) as [[ch|]|x];
    try (intros [= <- <- <-] []).
  assert (Hquiet : ~ In (EEdit c n b) (fetch_trace e server_id)).
  { intros Hin. apply fetch_trace_quiet in Hin as [Hin _]. discriminate. }
  destruct (negb (truthy (fetch_value e server_id)));
    [intros [= <- <- <-] Hin; now apply Hquiet in Hin|].
  destruct (desired_name e template server_data (fetch_value e server_id))
    as [nm|x] eqn:Hname;
    [|intros [= <- <- <-] Hin; now apply Hquiet in Hin].
  apply desired_name_fits in Hname.
  destruct (String.eqb (default "" (A !! ch)) nm); [|destruct (edit_ok e ch nm)];
    intros [= <- <- <-] Hin;
    (apply in_app_or in Hin as [Hin|Hin]; [now apply Hquiet in Hin|]);
    simpl in Hin; intuition (try discriminate);
    match goal with H : EEdit _ _ _ = EEdit _ _ _ |- _ => injection H as <- <- <- end;
    auto.
Qed.

Lemma run_edits (e : env) (js : list job) :
  forall (A B : gmap Z string) (r : result unit) (t : list event)
         (c : Z) (n : string) (b : bool),
    for_each (run_job e) js A = (r, B, t) ->
    In (EEdit c n b) t ->
    String.length n <= 100 /\ is_Some (A !! c) /\ In c (job_channel_ids js).
Proof.
  induction js as [|j js IH]; intros A B r t c n b Hrun Hin.
  - injection Hrun as <- <- <-. destruct Hin.
  - rewrite run_cons, run_job_normal in Hrun.
    destruct (entry_normal e (fst j) (channel_format (fst j)) (fst (snd j))
                (snd (snd j)) A) as [[ra A'] ta] eqn:Ha.
    rewrite job_channel_ids_cons.
    assert (Hhead : In (EEdit c n b) ta ->
                    String.length n <= 100 /\ is_Some (A !! c) /\
                    In c (match entry_channel_id (snd (snd j)) with
                          | Some z => z :: job_channel_ids js
                          | None => job_channel_ids js
                          end)).
    { intros Hta. destruct (entry_edits _ _ _ _ _ _ _ _ _ _ _ _ Ha Hta) as [Hlen Hres].
      apply resolve_some in Hres as (Hid & _ & Hsome).
      rewrite Hid. repeat split; auto. now left. }
    destruct ra as [[]|x].
    + destruct (for_each (run_job e) js A') as [[rb B'] tb] eqn:Hb.
      injection Hrun as <- <- <-.
      apply in_app_or in Hin as [Hin|Hin]; [now apply Hhead|].
      destruct (IH _ _ _ _ _ _ _ Hb Hin) as (Hlen & Hsome & Hids).
      apply entry_frame in Ha as [_ Hdom].
      repeat split; auto.
      * now apply Hdom.
      * destruct (entry_channel_id (snd (snd j))); [now right | exact Hids].
    + injection Hrun as <- <- <-. now apply Hhead.
Qed.

(** X3: every rename that a background pass sends asks for a name of at
    most 100 characters, for a channel that exists and that a tracked
    entry points to. *)
Theorem renames_fit_discord (e : env) (guilds : list guild) (names : gmap Z string)
    (c : Z) (n : string) (b : bool) :
  In (EEdit c n b) (snd (_update_all_channels e guilds names)) ->
  String.length n <= 100 /\ is_Some (names !! c) /\
  In c (job_channel_ids (jobs_of guilds)).
Proof.
  rewrite update_all_as_jobs.
  destruct (for_each (run_job e) (jobs_of guilds) names) as [[r B] t] eqn:Hrun.
  simpl. now apply (run_edits e _ _ _ _ _ _ _ _ Hrun).
Qed.

Lemma renames_fit_discord_witness :
  let g := sample_guild default_format [("B", entry 11 long_name)] in
  String.length (slice_to 100 ("[OFFLINE] " +:+ long_name)) <= 100.
Proof.
  intros g.
  apply (renames_fit_discord sample_env [g] sample_names 11%Z
           (slice_to 100 ("[OFFLINE] " +:+ long_name)) true).
  vm_compute. right. left. reflexivity.
Defined.

(** ** Particular templates *)

Lemma format_default (ext : StrFormat.extended_render) (players max_players name status : pyval) :
  StrFormat.format ext default_format (format_kwargs players max_players name status)
  = Ok ("[" +:+ str players +:+ "/" +:+ str max_players +:+ "] " +:+ str name).
Proof.
  unfold StrFormat.format.
  replace (tokens default_format)
    with [TChar "["; mk_field "players" None ""; TChar "/"; mk_field "max" None "";
          TChar "]"; TChar " "; mk_field "name" None ""]
    by (vm_compute; reflexivity).
  cbn [render render_field mk_field f_name f_conv f_spec split_first].
  vm_compute get_integer. cbn [format_kwargs dict_lookup String.eqb Ascii.eqb Bool.eqb].
  simpl. now rewrite append_nil_r.
Qed.

(** X4: with the default template, the channel of a server that is not
    offline is named [[players/max] name], cut at 100 characters, where
    the name is the stored one when the entry has it. *)
Theorem default_template_name (e : env) (d a : list (string * pyval)) (info : pyval) :
  Py.get info "attributes" (PDict []) = Ok (PDict a) ->
  eq_str (dict_get a "status" (PStr "offline")) "offline" = false ->
  desired_name e default_format (PDict d) info
  = Ok (slice_to 100
          ("[" +:+ str (dict_get a "players" (PInt 0)) +:+ "/"
           +:+ str (dict_get a "maxPlayers" (PInt 0)) +:+ "] "
           +:+ str (dict_get d "name" (dict_get a "name" (PStr "Unknown"))))).
Proof.
  intros Ha Hon. unfold desired_name, format_channel_name.
  rewrite Ha. cbv [Py.get]. rewrite Hon, format_default. reflexivity.
Qed.

Lemma default_template_name_witness :
  desired_name sample_env default_format (entry 10 "My Alpha")
    (snapshot 12 64 "Alpha" "online") = Ok "[12/64] My Alpha".
Proof.
  unfold entry.
  rewrite (default_template_name sample_env
             [("channel_id", PInt 10); ("name", PStr "My Alpha");
              ("added_by", PInt 7); ("added_at", PStr "2024-01-01T00:00:00")]
             [("name", PStr "Alpha"); ("players", PInt 12);
              ("maxPlayers", PInt 64); ("status", PStr "online")]
             (snapshot 12 64 "Alpha" "online") eq_refl eq_refl).
  vm_compute. reflexivity.
Defined.

Lemma format_literal (ext : StrFormat.extended_render) (kwargs : list (string * pyval))
    (template : string) :
  all_chars not_brace template = true ->
  StrFormat.format ext template kwargs = Ok template.
Proof.
  intros Htext. unfold StrFormat.format, tokens.
  rewrite <- (append_nil_r template) at 1.
  rewrite (scan_text template "" Htext). simpl scan.
  rewrite render_chars. simpl render. cbv iota.
  now rewrite append_nil_r, string_of_list_ascii_of_string.
Qed.

(** X5: a template without any brace is the name of the channel, cut at
    100 characters, for every server that is not offline: such a channel
    carries no live figure. *)
Theorem literal_template_name (e : env) (template : string)
    (d a : list (string * pyval)) (info : pyval) :
  all_chars not_brace template = true ->
  Py.get info "attributes" (PDict []) = Ok (PDict a) ->
  eq_str (dict_get a "status" (PStr "offline")) "offline" = false ->
  desired_name e template (PDict d) info = Ok (slice_to 100 template).
Proof.
  intros Htext Ha Hon. unfold desired_name, format_channel_name.
  rewrite Ha. cbv [Py.get]. rewrite Hon, (format_literal _ _ _ Htext). reflexivity.
Qed.

Lemma literal_template_name_witness :
  desired_name sample_env "Squad server" (entry 10 "My Alpha")
    (snapshot 12 64 "Alpha" "online") = Ok "Squad server".
Proof.
  unfold entry.
  rewrite (literal_template_name sample_env "Squad server"
             [("channel_id", PInt 10); ("name", PStr "My Alpha");
              ("added_by", PInt 7); ("added_at", PStr "2024-01-01T00:00:00")]
             [("name", PStr "Alpha"); ("players", PInt 12);
              ("maxPlayers", PInt 64); ("status", PStr "online")]
             (snapshot 12 64 "Alpha" "online") eq_refl eq_refl eq_refl).
  vm_compute. reflexivity.
Defined.

(** ** The counters and the pacing of [refresh] *)

Lemma refresh_entry_normal (e : env) (g : guild) (template server_id : string)
    (server_data : pyval) (counts : nat * nat) (names : gmap Z string) :
  refresh_entry e g template counts server_id server_data names =
  refresh_normal e g template counts server_id server_data names.
Proof.
  unfold refresh_entry, refresh_normal, resolve.
  destruct counts as [updated failed].
  destruct (Py.get server_data "channel_id" PNone) as [channel_id|x]; [|reflexivity].
  cbv [bind lift ret throw].
  destruct (truthy channel_id); cbv [negb]; [|reflexivity].
  destruct (get_channel g channel_id names) as [[r names1] tr1] eqn:Hget.
  assert (Hsame : names1 = names /\ tr1 = []).
  { unfold get_channel in Hget. destruct channel_id; inversion Hget; auto. }
  destruct Hsame as [-> ->]. cbv [fst snd].
  destruct r as [[channel|]|x]; try reflexivity.
  rewrite fetch_run.
  destruct (truthy (fetch_value e server_id)); cbv [negb];
    [|now rewrite app_nil_r].
  destruct (refresh_channel_name e template server_data (fetch_value e server_id))
    as [new_name|x]; [|now rewrite app_nil_r].
  cbv [try_http channel_edit sleep emit].
  destruct (edit_ok e channel new_name); reflexivity.
Qed.

Lemma count_app (p : event -> bool) (a b : list event) :
  count p (a ++ b) = count p a + count p b.
Proof. unfold count. now rewrite List.filter_app, List.length_app. Qed.

Lemma fetch_trace_counts (e : env) (server_id : string) :
  count is_request (fetch_trace e server_id) = 1 /\
  count is_edit (fetch_trace e server_id) = 0 /\
  count is_accepted_edit (fetch_trace e server_id) = 0.
Proof.
  destruct (fetch_trace_cases e server_id) as (auth & logs & -> & [->|[l ->]]);
    repeat split; reflexivity.
Qed.

(** What one entry adds to the counters and to the trace of [refresh]. *)
Lemma refresh_entry_counts (e : env) (g : guild) (template server_id : string)
    (server_data : pyval) (names names' : gmap Z string)
    (u f u' f' : nat) (t : list event) :
  refresh_normal e g template (u, f) server_id server_data names
    = (Ok (u', f'), names', t) ->
  u' = u + count is_accepted_edit t /\
  u' + f' = u + f + count is_request t /\
  List.filter is_sleep t = List.repeat (ESleep 2) (count is_edit t).
Proof.
  unfold refresh_normal.
  destruct (fetch_trace_counts e server_id) as (Hreq & Hedit & Hacc).
  pose proof (fetch_trace_no_sleep e server_id) as Hsleep.
  destruct (resolve g names server_data) as [[ch|]|x]; [| |discriminate].
  2:{ intros [= <- <- <- <-]. unfold count; simpl. repeat split; lia. }
  destruct (negb (truthy (fetch_value e server_id))).
  { intros [= <- <- <- <-]. simpl fst; simpl snd.
    rewrite Hreq, Hacc, Hedit, Hsleep. repeat split; try lia. }
  destruct (refresh_channel_name e template server_data (fetch_value e server_id))
    as [nm|x]; [|discriminate].
  destruct (edit_ok e ch nm); intros [= <- <- <- <-]; simpl fst; simpl snd;
    rewrite !count_app, List.filter_app, Hreq, Hacc, Hedit, Hsleep;
    unfold count; simpl; repeat split; lia.
Qed.

Lemma refresh_entries_cons (e : env) (g : guild) (template server_id : string)
    (server_data : pyval) (items : list (string * pyval)) (counts : nat * nat)
    (names : gmap Z string) :
  refresh_entries e g template counts ((server_id, server_data) :: items) names =
  match refresh_normal e g template counts server_id server_data names with
  | (Ok counts', names1, t1) =>
      match refresh_entries e g template counts' items names1 with
      | (r, names2, t2) => (r, names2, t1 ++ t2)
      end
  | (Raise x, names1, t1) => (Raise x, names1, t1)
  end.
Proof.
  cbn [refresh_entries]. unfold bind. now rewrite refresh_entry_normal.
Qed.

Lemma refresh_entries_counts (e : env) (g : guild) (template : string)
    (items : list (string * pyval)) :
  forall (names names' : gmap Z string) (u f u' f' : nat) (t : list event),
    refresh_entries e g template (u, f) items names = (Ok (u', f'), names', t) ->
    u' = u + count is_accepted_edit t /\
    u' + f' = u + f + count is_request t /\
    List.filter is_sleep t = List.repeat (ESleep 2) (count is_edit t).
Proof.
  induction items as [|[server_id server_data] items IH];
    intros names names' u f u' f' t Hrun.
  - injection Hrun as <- <- <- <-. unfold count; simpl. repeat split; lia.
  - rewrite refresh_entries_cons in Hrun.
    destruct (refresh_normal e g template (u, f) server_id server_data names)
      as [[[[u1 f1]|x] names1] t1] eqn:H1; [|discriminate].
    destruct (refresh_entries e g template (u1, f1) items names1)
      as [[r2 names2] t2] eqn:H2.
    assert (Hr : r2 = Ok (u', f')) by congruence.
    assert (Ht : t = t1 ++ t2) by congruence. subst r2 t.
    apply refresh_entry_counts in H1 as (Hu1 & Hs1 & Hp1).
    apply IH in H2 as (Hu2 & Hs2 & Hp2).
    rewrite !count_app, List.filter_app, Hp1, Hp2, <- List.repeat_app.
    repeat split; lia.
Qed.

Lemma paced_app (a b : list event) :
  paced a = true -> paced b = true -> paced (a ++ b) = true.
Proof.
  intros Ha Hb.
  assert (H : forall n l, List.length l <= n -> paced l = true -> paced (l ++ b) = true).
  { induction n as [|n IH]; intros l Hlen Hl.
    - destruct l; [exact Hb | simpl in Hlen; lia].
    - destruct l as [|ev l]; [exact Hb|].
      simpl in Hlen.
      destruct ev; cbn [paced app] in *; try (apply IH; [lia | exact Hl]).
      + destruct l as [|ev2 l]; [discriminate|].
        destruct ev2; try discriminate. cbn [app].
        apply andb_prop in Hl as [H1 H2]. rewrite H1. cbn [andb].
        apply IH; [simpl in Hlen; lia | exact H2].
      + discriminate. }
  now apply (H (List.length a) a).
Qed.

Lemma fetch_trace_paced (e : env) (server_id : string) :
  paced (fetch_trace e server_id) = true /\
  count is_rejected_edit (fetch_trace e server_id) = 0.
Proof.
  destruct (fetch_trace_cases e server_id) as (auth & logs & -> & [->|[l ->]]);
    split; reflexivity.
Qed.

Lemma resolves_agree (g : guild) (A C : gmap Z string) (item : string * pyval) :
  (forall ch, is_Some (A !! ch) <-> is_Some (C !! ch)) ->
  resolves g A item = resolves g C item.
Proof.
  intros H. unfold resolves.
  now rewrite (resolve_agree g A C (snd item)) by (intros ch _; apply H).
Qed.

(** What one entry adds to the counters and to the trace of [refresh],
    from the entry itself. *)
Lemma refresh_normal_account (e : env) (g : guild) (template server_id : string)
    (server_data : pyval) (names names' : gmap Z string)
    (u f u' f' : nat) (t : list event) :
  refresh_normal e g template (u, f) server_id server_data names
    = (Ok (u', f'), names', t) ->
  (forall ch, is_Some (names !! ch) <-> is_Some (names' !! ch)) /\
  u' = u + count is_accepted_edit t /\
  f' = f + count is_rejected_edit t
       + (if fetch_fails e g names (server_id, server_data) then 1 else 0) /\
  count is_request t = (if resolves g names (server_id, server_data) then 1 else 0) /\
  count is_edit t = (if is_renamed e g names (server_id, server_data) then 1 else 0) /\
  paced t = true.
Proof.
  unfold refresh_normal, fetch_fails, is_renamed, resolves. cbn [fst snd].
  destruct (fetch_trace_counts e server_id) as (Hreq & Hedit & Hacc).
  destruct (fetch_trace_paced e server_id) as (Hpaced & Hrej).
  destruct (resolve g names server_data) as [[ch|]|x] eqn:Hres; [| |discriminate].
  2:{ intros [= <- <- <- <-]. unfold count; simpl. repeat split; auto; lia. }
  destruct (truthy (fetch_value e server_id)); cbn [negb andb].
  2:{ intros [= <- <- <- <-]. rewrite Hreq, Hacc, Hedit, Hrej.
      repeat split; auto; lia. }
  destruct (refresh_channel_name e template server_data (fetch_value e server_id))
    as [nm|x]; [|discriminate].
  apply resolve_some in Hres as (_ & _ & Hknown).
  destruct (edit_ok e ch nm); intros [= <- <- <- <-];
    rewrite !count_app, Hreq, Hacc, Hedit, Hrej; unfold count; cbn;
    (split; [|repeat split; try lia; apply paced_app; [exact Hpaced | reflexivity]]).
  - intros c. destruct (decide (c = ch)) as [->|Hne].
    + rewrite lookup_insert_eq. split; [eauto | intros _; exact Hknown].
    + now rewrite lookup_insert_ne by congruence.
  - intros c. reflexivity.
Qed.

Lemma refresh_entries_account (e : env) (g : guild) (template : string)
    (items : list (string * pyval)) :
  forall (names names' : gmap Z string) (u f u' f' : nat) (t : list event),
    refresh_entries e g template (u, f) items names = (Ok (u', f'), names', t) ->
    (forall ch, is_Some (names !! ch) <-> is_Some (names' !! ch)) /\
    u' = u + count is_accepted_edit t /\
    f' = f + count is_rejected_edit t
         + List.length (List.filter (fetch_fails e g names) items) /\
    count is_request t = List.length (List.filter (resolves g names) items) /\
    count is_edit t = List.length (List.filter (is_renamed e g names) items) /\
    paced t = true.
Proof.
  induction items as [|[server_id server_data] items IH];
    intros names names' u f u' f' t Hrun.
  - injection Hrun as <- <- <- <-. unfold count; simpl. repeat split; auto; lia.
  - rewrite refresh_entries_cons in Hrun.
    destruct (refresh_normal e g template (u, f) server_id server_data names)
      as [[[[u1 f1]|x] names1] t1] eqn:H1; [|discriminate].
    destruct (refresh_entries e g template (u1, f1) items names1)
      as [[r2 names2] t2] eqn:H2.
    assert (Hr : r2 = Ok (u', f')) by congruence.
    assert (Ht : t = t1 ++ t2) by congruence.
    assert (Hn : names2 = names') by congruence. subst r2 t names2.
    apply refresh_normal_account in H1 as (Hd1 & Hu1 & Hf1 & Hq1 & He1 & Hp1).
    apply IH in H2 as (Hd2 & Hu2 & Hf2 & Hq2 & He2 & Hp2).
    assert (Hsame : forall item, resolves g names1 item = resolves g names item).
    { intros item. apply resolves_agree. intros ch. symmetry. apply Hd1. }
    rewrite (List.filter_ext (fetch_fails e g names1) (fetch_fails e g names)) in Hf2
      by (intros item; unfold fetch_fails; now rewrite Hsame).
    rewrite (List.filter_ext (resolves g names1) (resolves g names)) in Hq2
      by exact Hsame.
    rewrite (List.filter_ext (is_renamed e g names1) (is_renamed e g names)) in He2
      by (intros item; unfold is_renamed; now rewrite Hsame).
    rewrite !count_app. cbn [List.filter].
    split; [intros ch; rewrite (Hd1 ch); apply Hd2|].
    split; [lia|].
    split; [destruct (fetch_fails e g names (server_id, server_data)); simpl; lia|].
    split; [destruct (resolves g names (server_id, server_data)); simpl; lia|].
    split; [destruct (is_renamed e g names (server_id, server_data)); simpl; lia|].
    now apply paced_app.
Qed.

(** X6: when [refresh] ends, the counters it reports add up.  Every entry
    whose channel exists is requested once and counted once, in "updated"
    or in "failed"; an entry without a channel is neither requested nor
    counted.  "updated" is the number of renames that Discord accepted;
    "failed" is the number of renames that it rejected plus the number of
    entries whose channel exists and whose server could not be fetched;
    the entries whose server was fetched are renamed, one call each. *)
Theorem refresh_counters_add_up (e : env) (g : guild)
    (names names' : gmap Z string) (tr : list event) :
  servers g <> [] ->
  refresh_servers e g names = (Ok tt, names', tr) ->
  exists updated failed body,
    tr = ESend Refreshing :: body ++ [ESend (RefreshComplete updated failed)] /\
    updated = count is_accepted_edit body /\
    updated + failed = count is_request body /\
    updated + failed = List.length (List.filter (resolves g names) (servers g)) /\
    failed = count is_rejected_edit body
             + List.length (List.filter (fetch_fails e g names) (servers g)) /\
    count is_edit body = List.length (List.filter (is_renamed e g names) (servers g)).
Proof.
  intros Hne Hrun. unfold refresh_servers in Hrun.
  destruct (servers g) as [|item items] eqn:Hs; [contradiction|].
  cbv [bind send emit] in Hrun.
  destruct (refresh_entries e g (channel_format g) (0, 0) (item :: items) names)
    as [[[[u f]|x] names1] t] eqn:Hloop; [|discriminate].
  pose proof (refresh_entries_counts _ _ _ _ _ _ _ _ _ _ _ Hloop) as (Hu & Hsum & _).
  apply refresh_entries_account in Hloop as (_ & _ & Hf & Hq & He & _).
  exists u, f, t. simpl in Hrun. split; [congruence|].
  repeat split; try lia; assumption.
Qed.

Lemma refresh_counters_add_up_witness :
  let g := sample_guild default_format
             [("C", entry 12 "Gamma"); ("A", entry 10 "My Alpha"); ("Z", entry 99 "Gone")] in
  exists updated failed body,
    snd (refresh_servers rejecting_env g sample_names)
    = ESend Refreshing :: body ++ [ESend (RefreshComplete updated failed)] /\
    updated = count is_accepted_edit body /\
    updated + failed = 2 /\
    failed = count is_rejected_edit body + 1 /\
    count is_edit body = 1.
Proof.
  intros g.
  destruct (refresh_counters_add_up rejecting_env g sample_names
              (snd (fst (refresh_servers rejecting_env g sample_names)))
              (snd (refresh_servers rejecting_env g sample_names)))
    as (updated & failed & body & Htr & Hu & _ & Hsum & Hf & He).
  - discriminate.
  - vm_compute. reflexivity.
  - exists updated, failed, body.
    split; [exact Htr|]. split; [exact Hu|].
    split; [exact Hsum|]. split; [exact Hf | exact He].
Defined.

(** X7: in a [refresh] that ends, every rename call, accepted or not, is
    at once followed by one sleep of 2 seconds, and nothing else sleeps: a
    server that could not be fetched costs no delay.  There is one rename
    call, hence one sleep, for each entry whose channel exists and whose
    server was fetched. *)
Theorem refresh_sleeps_after_each_rename (e : env) (g : guild)
    (names names' : gmap Z string) (tr : list event) :
  refresh_servers e g names = (Ok tt, names', tr) ->
  paced tr = true /\
  List.filter is_sleep tr = List.repeat (ESleep 2) (count is_edit tr) /\
  count is_edit tr = List.length (List.filter (is_renamed e g names) (servers g)).
Proof.
  intros Hrun. unfold refresh_servers in Hrun.
  destruct (servers g) as [|item items] eqn:Hs.
  - injection Hrun as <- <-. repeat split; reflexivity.
  - cbv [bind send emit] in Hrun.
    destruct (refresh_entries e g (channel_format g) (0, 0) (item :: items) names)
      as [[[[u f]|x] names1] t] eqn:Hloop; [|discriminate].
    pose proof (refresh_entries_counts _ _ _ _ _ _ _ _ _ _ _ Hloop) as (_ & _ & Hsleep).
    apply refresh_entries_account in Hloop as (_ & _ & _ & _ & He & Hp).
    simpl in Hrun. assert (Htr : tr = ESend Refreshing :: t ++ [ESend (RefreshComplete u f)])
      by congruence.
    subst tr. change (ESend Refreshing :: t ++ [ESend (RefreshComplete u f)])
      with ([ESend Refreshing] ++ t ++ [ESend (RefreshComplete u f)]).
    split; [|split].
    + apply paced_app; [reflexivity|]. apply paced_app; [exact Hp | reflexivity].
    + rewrite !count_app, !List.filter_app, Hsleep. unfold count; simpl.
      now rewrite app_nil_r, Nat.add_0_r.
    + rewrite !count_app, He. unfold count; simpl. lia.
Qed.

Lemma refresh_sleeps_after_each_rename_witness :
  let g := sample_guild default_format
             [("C", entry 12 "Gamma"); ("A", entry 10 "My Alpha"); ("B", entry 11 "Beta")] in
  let tr := snd (refresh_servers sample_env g sample_names) in
  paced tr = true /\
  List.filter is_sleep tr = [ESleep 2; ESleep 2] /\
  count is_edit tr = 2.
Proof.
  intros g tr.
  destruct (refresh_sleeps_after_each_rename sample_env g sample_names
              (snd (fst (refresh_servers sample_env g sample_names))) tr)
    as (Hp & Hs & He).
  - vm_compute. reflexivity.
  - split; [exact Hp|]. split; [|exact He].
    rewrite Hs, He. reflexivity.
Defined.

(** ** The [add] command, case by case *)

Lemma add_server_normal (e : env) (g : guild) (author : Z) (server_id : string)
    (custom_name : option string) (names : gmap Z string) :
  add_server e g author server_id custom_name names
  = add_normal e g author server_id custom_name names.
Proof.
  unfold add_server, add_normal, add_details, new_entry.
  destruct (negb (truthy (category_id g))); [reflexivity|].
  cbv [bind lift ret throw send emit].
  destruct (get_channel g (category_id g) names) as [[r names1] tr1] eqn:Hget.
  assert (Hsame : names1 = names /\ tr1 = []).
  { unfold get_channel in Hget. destruct (category_id g); inversion Hget; auto. }
  destruct Hsame as [-> ->]. cbv [fst].
  destruct r as [[category|]|x]; try reflexivity.
  rewrite fetch_run.
  destruct (truthy (fetch_value e server_id)); cbv [negb]; [|reflexivity].
  destruct (Py.get (fetch_value e server_id) "attributes" (PDict []))
    as [attributes|x]; [|now rewrite app_nil_r].
  destruct (add_server_name custom_name attributes) as [server_name|x];
    [|now rewrite app_nil_r].
  destruct (Py.get attributes "players" (PInt 0)) as [players|x];
    [|now rewrite app_nil_r].
  destruct (Py.get attributes "maxPlayers" (PInt 0)) as [max_players|x];
    [|now rewrite app_nil_r].
  destruct (add_channel_name e (channel_format g) custom_name (fetch_value e server_id))
    as [channel_name|x]; [|now rewrite app_nil_r].
  cbv [try_http create_voice_channel].
  destruct (create_ok e category channel_name); reflexivity.
Qed.

Lemma dict_lookup_set_same (k : string) (v : pyval) (d : list (string * pyval)) :
  dict_lookup k (dict_set k v d) = Some v.
Proof.
  induction d as [|[k' v'] d IH]; simpl.
  - now rewrite String.eqb_refl.
  - destruct (String.eqb k k') eqn:Hk; simpl.
    + now rewrite String.eqb_refl.
    + now rewrite Hk.
Qed.

Lemma dict_lookup_set_other (k k' : string) (v : pyval) (d : list (string * pyval)) :
  k' <> k -> dict_lookup k' (dict_set k v d) = dict_lookup k' d.
Proof.
  intros Hne. induction d as [|[k0 v0] d IH]; simpl.
  - destruct (String.eqb_spec k' k); [contradiction | reflexivity].
  - destruct (String.eqb_spec k k0) as [->|Hk]; simpl.
    + destruct (String.eqb_spec k' k0); [contradiction | reflexivity].
    + destruct (String.eqb_spec k' k0); [reflexivity | exact IH].
Qed.

Lemma dict_set_length (k : string) (v : pyval) (d : list (string * pyval)) :
  List.length (dict_set k v d) =
  match dict_lookup k d with
  | Some _ => List.length d
  | None => S (List.length d)
  end.
Proof.
  induction d as [|[k' v'] d IH]; simpl; [reflexivity|].
  destruct (String.eqb k k'); simpl; [reflexivity|].
  rewrite IH. now destruct (dict_lookup k d).
Qed.

Lemma fetch_trace_no_creation (e : env) (server_id : string)
    (cat : Z) (nm : string) (created : option Z) :
  ~ In (ECreate cat nm created) (fetch_trace e server_id).
Proof.
  destruct (fetch_trace_cases e server_id) as (auth & logs & -> & [->|[l ->]]);
    simpl; intuition discriminate.
Qed.

Lemma add_channel_name_fits (e : env) (template : string) (custom_name : option string)
    (info : pyval) (nm : string) :
  add_channel_name e template custom_name info = Ok nm -> String.length nm <= 100.
Proof.
  unfold add_channel_name.
  repeat match goal with
         | |- context [match ?r with Ok _ => _ | Raise _ => _ end] =>
             destruct r; try discriminate
         end.
  intros H. assert (Hnm : nm = slice_to 100 a3) by congruence.
  rewrite Hnm, slice_to_length. lia.
Qed.

Lemma add_details_name (e : env) (template : string) (custom_name : option string)
    (info server_name players max_players : pyval) (nm : string) :
  add_details e template custom_name info = Ok (server_name, players, max_players, nm) ->
  add_channel_name e template custom_name info = Ok nm.
Proof.
  unfold add_details.
  repeat match goal with
         | |- context [match ?r with Ok _ => _ | Raise _ => _ end] =>
             destruct r; try discriminate
         end.
  congruence.
Qed.

Lemma add_details_inv (e : env) (template : string) (custom_name : option string)
    (info server_name players max_players : pyval) (nm : string) :
  add_details e template custom_name info = Ok (server_name, players, max_players, nm) ->
  exists a text,
    Py.get info "attributes" (PDict []) = Ok (PDict a) /\
    add_server_name custom_name (PDict a) = Ok server_name /\
    players = dict_get a "players" (PInt 0) /\
    max_players = dict_get a "maxPlayers" (PInt 0) /\
    StrFormat.format (ext e) template
      (format_kwargs players max_players server_name (PStr "online")) = Ok text /\
    nm = slice_to 100 text.
Proof.
  unfold add_details, add_channel_name.
  destruct (Py.get info "attributes" (PDict [])) as [attributes|x]; [|discriminate].
  destruct (add_server_name custom_name attributes) as [name|x] eqn:Hname;
    [|discriminate].
  destruct attributes as [| | | | |a]; try discriminate.
  cbv [Py.get].
  destruct (StrFormat.format (ext e) template
              (format_kwargs (dict_get a "players" (PInt 0))
                 (dict_get a "maxPlayers" (PInt 0)) name (PStr "online")))
    as [text|x] eqn:Hf; [|discriminate].
  intros H. exists a, text.
  assert (H1 : name = server_name) by congruence.
  assert (H2 : dict_get a "players" (PInt 0) = players) by congruence.
  assert (H3 : dict_get a "maxPlayers" (PInt 0) = max_players) by congruence.
  assert (H4 : nm = slice_to 100 text) by congruence.
  subst. repeat split; auto.
Qed.

(** X8: the [add] command changes nothing unless Discord creates the
    channel: when no channel is created (no category, category deleted,
    server not found, creation rejected, or an exception), the names of
    the channels are as before, and the configuration too. *)
Theorem add_changes_nothing_without_a_channel (e : env) (g : guild) (author : Z)
    (server_id : string) (custom_name : option string) (names : gmap Z string) :
  let out := add_server e g author server_id custom_name names in
  (forall cat nm ch, ~ In (ECreate cat nm (Some ch)) (snd out)) ->
  snd (fst out) = names /\ (forall g', fst (fst out) = Ok g' -> g' = g).
Proof.
  intros out. subst out. rewrite add_server_normal. unfold add_normal.
  destruct (negb (truthy (category_id g))); [intros _; split; [reflexivity|simpl; intros g' Hg; congruence]|].
  destruct (fst (fst (get_channel g (category_id g) names))) as [[category|]|x];
    try (intros _; split; [reflexivity|simpl; intros g' Hg; congruence]).
  destruct (negb (truthy (fetch_value e server_id)));
    [intros _; split; [reflexivity|simpl; intros g' Hg; congruence]|].
  destruct (add_details e (channel_format g) custom_name (fetch_value e server_id))
    as [[[[server_name players] max_players] channel_name]|x];
    [|intros _; split; [reflexivity|simpl; intros g' Hg; congruence]].
  destruct (create_ok e category channel_name) as [id|];
    [|intros _; split; [reflexivity|simpl; intros g' Hg; congruence]].
  intros Hnone. exfalso. apply (Hnone category channel_name id).
  simpl. apply in_or_app. right. now left.
Qed.

Lemma add_changes_nothing_without_a_channel_witness :
  let g := sample_guild default_format [("A", entry 10 "My Alpha")] in
  snd (fst (add_server sample_env g 7 "C" None sample_names)) = sample_names.
Proof.
  intros g.
  apply (add_changes_nothing_without_a_channel sample_env g 7%Z "C" None sample_names).
  intros cat nm ch Hin. vm_compute in Hin.
  destruct Hin as [Hin|[Hin|[Hin|[]]]]; discriminate Hin.
Defined.

(** X9: when [add] creates a channel, the channel bears the name that the
    command computes from what it fetched: the template filled with the
    fetched counts, the name to store and ["online"], cut at 100
    characters.  The name to store is the custom name when one is given
    and not empty, the fetched name otherwise (["Unknown Server"] without
    one).  Under the server id the command stores an entry with that
    channel, that name, the author and the time; the other entries are as
    before, a tracked id keeps a single entry, and the channel belongs to
    the guild. *)
Theorem add_stores_what_it_creates (e : env) (g : guild) (author : Z)
    (server_id : string) (custom_name : option string) (names : gmap Z string)
    (cat ch : Z) (nm : string) :
  let out := add_server e g author server_id custom_name names in
  In (ECreate cat nm (Some ch)) (snd out) ->
  exists g' a server_name text,
    fst (fst out) = Ok g' /\
    Py.get (fetch_value e server_id) "attributes" (PDict []) = Ok (PDict a) /\
    add_server_name custom_name (PDict a) = Ok server_name /\
    server_name =
      match custom_name with
      | Some s => if String.eqb s "" then dict_get a "name" (PStr "Unknown Server")
                  else PStr s
      | None => dict_get a "name" (PStr "Unknown Server")
      end /\
    StrFormat.format (ext e) (channel_format g)
      (format_kwargs (dict_get a "players" (PInt 0))
         (dict_get a "maxPlayers" (PInt 0)) server_name (PStr "online")) = Ok text /\
    nm = slice_to 100 text /\
    create_ok e cat nm = Some ch /\
    dict_lookup server_id (servers g')
      = Some (PDict [("channel_id", PInt ch); ("name", server_name);
                     ("added_by", PInt author); ("added_at", PStr (utcnow e))]) /\
    (forall k, k <> server_id -> dict_lookup k (servers g') = dict_lookup k (servers g)) /\
    List.length (servers g') =
      match dict_lookup server_id (servers g) with
      | Some _ => List.length (servers g)
      | None => S (List.length (servers g))
      end /\
    channels g' = channels g ∪ {[ch]} /\
    category_id g' = category_id g /\
    channel_format g' = channel_format g /\
    snd (fst out) = <[ch := nm]> names /\
    String.length nm <= 100.
Proof.
  intros out. subst out. rewrite add_server_normal. unfold add_normal.
  destruct (negb (truthy (category_id g)));
    [simpl; intuition discriminate|].
  destruct (fst (fst (get_channel g (category_id g) names))) as [[category|]|x];
    try (simpl; intuition discriminate).
  destruct (negb (truthy (fetch_value e server_id))).
  { simpl. intros Hin. apply in_app_or in Hin as [Hin|Hin].
    - now apply fetch_trace_no_creation in Hin.
    - simpl in Hin. intuition discriminate. }
  destruct (add_details e (channel_format g) custom_name (fetch_value e server_id))
    as [[[[server_name players] max_players] channel_name]|x] eqn:Hdet.
  2:{ simpl. intros Hin. now apply fetch_trace_no_creation in Hin. }
  pose proof (add_channel_name_fits _ _ _ _ _ (add_details_name _ _ _ _ _ _ _ _ Hdet))
    as Hfits.
  apply add_details_inv in Hdet as (a & text & Ha & Hname & -> & -> & Hfmt & Hnm).
  destruct (create_ok e category channel_name) as [id|] eqn:Hcreate; simpl; intros Hin;
    (apply in_app_or in Hin as [Hin|Hin];
     [now apply fetch_trace_no_creation in Hin|]);
    simpl in Hin; destruct Hin as [Hin|[Hin|[]]]; try discriminate Hin.
  assert (Hcat : category = cat) by congruence.
  assert (Hn : channel_name = nm) by congruence.
  assert (Hid : id = ch) by congruence.
  subst category id. rewrite Hn in Hnm, Hcreate, Hfits |- *. clear Hn.
  exists {| channels := channels g ∪ {[ch]};
            servers := dict_set server_id (new_entry e author ch server_name) (servers g);
            category_id := category_id g;
            channel_format := channel_format g |}, a, server_name, text.
  cbn [fst snd servers channels category_id channel_format].
  split; [reflexivity|]. split; [exact Ha|]. split; [exact Hname|].
  split.
  { revert Hname. unfold add_server_name. cbv [Py.get].
    destruct custom_name as [s|]; [destruct (String.eqb s "")|]; cbn [negb];
      congruence. }
  split; [exact Hfmt|]. split; [exact Hnm|]. split; [exact Hcreate|].
  split; [apply dict_lookup_set_same|].
  split; [intros k Hk; now apply dict_lookup_set_other|].
  split; [apply dict_set_length|].
  repeat split; auto.
Qed.

Lemma add_stores_what_it_creates_witness :
  let g := sample_guild default_format [("A", entry 10 "My Alpha")] in
  let out := add_server sample_env g 7 "B" (Some "Mine") sample_names in
  exists g',
    fst (fst out) = Ok g' /\
    dict_lookup "B" (servers g')
      = Some (PDict [("channel_id", PInt 900); ("name", PStr "Mine");
                     ("added_by", PInt 7); ("added_at", PStr (utcnow sample_env))]) /\
    dict_lookup "A" (servers g') = Some (entry 10 "My Alpha") /\
    snd (fst out) = <[900%Z := "[0/64] Mine"]> sample_names.
Proof.
  intros g out.
  destruct (add_stores_what_it_creates sample_env g 7%Z "B" (Some "Mine") sample_names
              1%Z 900%Z "[0/64] Mine")
    as (g' & a & server_name & text & Hok & _ & _ & Hname & _ & _ & _ & Hentry
        & Hothers & _ & _ & _ & _ & Hnames & _).
  - vm_compute. right. left. reflexivity.
  - exists g'. split; [exact Hok|]. split; [|split].
    + rewrite Hentry, Hname. reflexivity.
    + rewrite (Hothers "A") by discriminate. reflexivity.
    + exact Hnames.
Defined.

Lemma add_details_online (e : env) (template : string) (custom_name : option string)
    (info server_name players max_players : pyval) (nm : string)
    (a : list (string * pyval)) :
  Py.get info "attributes" (PDict []) = Ok (PDict a) ->
  add_details e template custom_name info = Ok (server_name, players, max_players, nm) ->
  match StrFormat.format (ext e) template
          (format_kwargs (dict_get a "players" (PInt 0))
             (dict_get a "maxPlayers" (PInt 0)) server_name (PStr "online")) with
  | Ok text => Ok (slice_to 100 text)
  | Raise x => Raise x
  end = Ok nm.
Proof.
  intros Ha. unfold add_details, add_channel_name. rewrite Ha.
  destruct (add_server_name custom_name (PDict a)) as [name|x]; [|discriminate].
  cbv [Py.get].
  destruct (StrFormat.format (ext e) template
              (format_kwargs (dict_get a "players" (PInt 0))
                 (dict_get a "maxPlayers" (PInt 0)) name (PStr "online")))
    as [text|x] eqn:Hf; [|discriminate].
  intros H. assert (Hname : name = server_name) by congruence. subst name.
  rewrite Hf. congruence.
Qed.

(** C10: the [add] command formats the name of the channel it creates
    with the status ["online"], whatever status was fetched: the name is
    the template filled with the fetched counts, the chosen name and
    ["online"], cut at 100 characters; that name, and no other, is the one
    the command asks Discord to create the channel with; and the whole
    command runs identically on two snapshots that differ in their status
    only. *)
Theorem add_ignores_fetched_status :
  (forall (e : env) (template : string) (custom_name : option string) (info : pyval)
          (a : list (string * pyval)) (name : pyval),
      Py.get info "attributes" (PDict []) = Ok (PDict a) ->
      add_server_name custom_name (PDict a) = Ok name ->
      add_channel_name e template custom_name info =
      match StrFormat.format (ext e) template
              (format_kwargs (dict_get a "players" (PInt 0))
                 (dict_get a "maxPlayers" (PInt 0)) name (PStr "online")) with
      | Ok text => Ok (slice_to 100 text)
      | Raise x => Raise x
      end) /\
  (forall (e : env) (h : string -> http_outcome) (g : guild) (author : Z)
          (server_id : string) (custom_name : option string) (names : gmap Z string)
          (a a' : list (string * pyval)),
      Py.get (fetch_value e server_id) "attributes" (PDict []) = Ok (PDict a) ->
      Py.get (fetch_value (with_http h e) server_id) "attributes" (PDict [])
        = Ok (PDict a') ->
      truthy (fetch_value (with_http h e) server_id) = truthy (fetch_value e server_id) ->
      fetch_trace (with_http h e) server_id = fetch_trace e server_id ->
      (forall k, k <> "status" -> dict_lookup k a = dict_lookup k a') ->
      add_server (with_http h e) g author server_id custom_name names
        = add_server e g author server_id custom_name names) /\
  (forall (e : env) (g : guild) (author : Z) (server_id : string)
          (custom_name : option string) (names : gmap Z string) (cat : Z)
          (a : list (string * pyval)) (name : pyval) (text : string),
      truthy (category_id g) = true ->
      fst (fst (get_channel g (category_id g) names)) = Ok (Some cat) ->
      truthy (fetch_value e server_id) = true ->
      Py.get (fetch_value e server_id) "attributes" (PDict []) = Ok (PDict a) ->
      add_server_name custom_name (PDict a) = Ok name ->
      StrFormat.format (ext e) (channel_format g)
        (format_kwargs (dict_get a "players" (PInt 0))
           (dict_get a "maxPlayers" (PInt 0)) name (PStr "online")) = Ok text ->
      snd (add_server e g author server_id custom_name names)
      = fetch_trace e server_id
        ++ [ECreate cat (slice_to 100 text) (create_ok e cat (slice_to 100 text));
            ESend (match create_ok e cat (slice_to 100 text) with
                   | Some ch =>
                       NowTracking (str name) server_id
                         (dict_get a "players" (PInt 0))
                         (dict_get a "maxPlayers" (PInt 0)) ch
                   | None => CreateFailed
                   end)]) /\
  (forall (e : env) (g : guild) (author : Z) (server_id : string)
          (custom_name : option string) (names : gmap Z string) (cat : Z)
          (nm : string) (created : option Z),
      In (ECreate cat nm created) (snd (add_server e g author server_id custom_name names)) ->
      exists a name text,
        Py.get (fetch_value e server_id) "attributes" (PDict []) = Ok (PDict a) /\
        add_server_name custom_name (PDict a) = Ok name /\
        StrFormat.format (ext e) (channel_format g)
          (format_kwargs (dict_get a "players" (PInt 0))
             (dict_get a "maxPlayers" (PInt 0)) name (PStr "online")) = Ok text /\
        nm = slice_to 100 text).
Proof.
  split; [|split; [|split]].
  - intros e template custom_name info a name Ha Hname.
    unfold add_channel_name. rewrite Ha, Hname. reflexivity.
  - intros e h g author server_id custom_name names a a' Ha Ha' Htruthy Htrace Hsame.
    unfold add_server.
    destruct (negb (truthy (category_id g))); [reflexivity|].
    cbv [bind].
    destruct (get_channel g (category_id g) names) as [[[[category|]|x] names1] tr1];
      try reflexivity.
    rewrite !fetch_run, Htruthy, Htrace.
    destruct (truthy (fetch_value e server_id)); cbv [negb]; [|reflexivity].
    rewrite (add_channel_name_same e (with_http h e) (channel_format g) custom_name
               _ _ a a' eq_refl Ha Ha' Hsame).
    rewrite Ha, Ha'. cbv [lift ret].
    rewrite (add_server_name_same custom_name a' a)
      by (symmetry; apply Hsame; discriminate).
    destruct (add_server_name custom_name (PDict a)) as [server_name|x]; [|reflexivity].
    cbv [Py.get dict_get].
    rewrite <- (Hsame "players") by discriminate.
    rewrite <- (Hsame "maxPlayers") by discriminate.
    reflexivity.
  - intros e g author server_id custom_name names cat a name text
           Hcat Hget Hinfo Ha Hname Hfmt.
    rewrite add_server_normal. unfold add_normal.
    rewrite Hcat, Hget, Hinfo. cbn [negb].
    unfold add_details, add_channel_name. rewrite Ha, Hname. cbv [Py.get].
    rewrite Hfmt.
    destruct (create_ok e cat (slice_to 100 text)); reflexivity.
  - intros e g author server_id custom_name names cat nm created.
    rewrite add_server_normal. unfold add_normal.
    destruct (negb (truthy (category_id g)));
      [simpl; intuition discriminate|].
    destruct (fst (fst (get_channel g (category_id g) names))) as [[category|]|x];
      try (simpl; intuition discriminate).
    destruct (negb (truthy (fetch_value e server_id))).
    { simpl. intros Hin. apply in_app_or in Hin as [Hin|Hin].
      - now apply fetch_trace_no_creation in Hin.
      - simpl in Hin. intuition discriminate. }
    destruct (add_details e (channel_format g) custom_name (fetch_value e server_id))
      as [[[[server_name players] max_players] channel_name]|x] eqn:Hdet.
    2:{ simpl. intros Hin. now apply fetch_trace_no_creation in Hin. }
    apply add_details_inv in Hdet
      as (a & text & Ha & Hname & -> & -> & Hfmt & Hnm).
    intros Hin.
    assert (Hcreated : nm = channel_name).
    { destruct (create_ok e category channel_name); simpl in Hin;
        (apply in_app_or in Hin as [Hin|Hin];
         [now apply fetch_trace_no_creation in Hin|]);
        simpl in Hin; destruct Hin as [Hin|[Hin|[]]]; congruence. }
    exists a, server_name, text. repeat split; auto. congruence.
Qed.

Lemma add_ignores_fetched_status_witness :
  let g := sample_guild default_format [] in
  add_channel_name sample_env default_format None (snapshot 0 64 "Beta" "offline")
    = Ok "[0/64] Beta" /\
  add_server (with_http online_http sample_env) g 7 "B" None sample_names
    = add_server sample_env g 7 "B" None sample_names /\
  snd (add_server sample_env g 7 "B" None sample_names)
    = [EGet "B" None; ECreate 1 "[0/64] Beta" (Some 900%Z);
       ESend (NowTracking "Beta" "B" (PInt 0) (PInt 64) 900)] /\
  exists a name text,
    Py.get (fetch_value sample_env "B") "attributes" (PDict []) = Ok (PDict a) /\
    add_server_name None (PDict a) = Ok name /\
    StrFormat.format (ext sample_env) (channel_format g)
      (format_kwargs (dict_get a "players" (PInt 0))
         (dict_get a "maxPlayers" (PInt 0)) name (PStr "online")) = Ok text /\
    "[0/64] Beta" = slice_to 100 text.
Proof.
  intros g. split; [|split; [|split]].
  - rewrite (proj1 add_ignores_fetched_status sample_env default_format None
               (snapshot 0 64 "Beta" "offline")
               [("name", PStr "Beta"); ("players", PInt 0);
                ("maxPlayers", PInt 64); ("status", PStr "offline")]
               (PStr "Beta") eq_refl eq_refl).
    vm_compute. reflexivity.
  - apply (proj1 (proj2 add_ignores_fetched_status) sample_env online_http g 7%Z "B" None
             sample_names
             [("name", PStr "Beta"); ("players", PInt 0);
              ("maxPlayers", PInt 64); ("status", PStr "offline")]
             [("name", PStr "Beta"); ("players", PInt 0);
              ("maxPlayers", PInt 64); ("status", PStr "online")]);
      try (vm_compute; reflexivity).
    intros k Hk. simpl.
    repeat match goal with
           | |- context [String.eqb k ?s] =>
               destruct (String.eqb_spec k s); [subst; try reflexivity; congruence|]
           end.
    reflexivity.
  - apply (proj1 (proj2 (proj2 add_ignores_fetched_status)) sample_env g 7%Z "B" None
             sample_names 1%Z
             [("name", PStr "Beta"); ("players", PInt 0);
              ("maxPlayers", PInt 64); ("status", PStr "offline")]
             (PStr "Beta") "[0/64] Beta"); vm_compute; reflexivity.
  - apply (proj2 (proj2 (proj2 add_ignores_fetched_status)) sample_env g 7%Z "B" None
             sample_names 1%Z "[0/64] Beta" (Some 900%Z)).
    vm_compute. right. left. reflexivity.
Defined.

(** X10: the channel that [add] has created for an online server is left
    alone by the next background pass when the API still gives the same
    answer: the entry is fetched, found up to date, and not renamed. *)
Theorem added_channel_is_up_to_date (e : env) (g g' : guild) (author : Z)
    (server_id : string) (custom_name : option string) (names : gmap Z string)
    (cat ch : Z) (nm : string) (a : list (string * pyval)) :
  let out := add_server e g author server_id custom_name names in
  In (ECreate cat nm (Some ch)) (snd out) ->
  fst (fst out) = Ok g' ->
  ch <> 0%Z ->
  Py.get (fetch_value e server_id) "attributes" (PDict []) = Ok (PDict a) ->
  dict_get a "status" (PStr "offline") = PStr "online" ->
  exists server_data,
    dict_lookup server_id (servers g') = Some server_data /\
    update_entry e g' (channel_format g') server_id server_data (snd (fst out))
    = (Ok tt, snd (fst out), fetch_trace e server_id ++ [ESleep 2]).
Proof.
  intros out. subst out. rewrite add_server_normal. unfold add_normal.
  destruct (negb (truthy (category_id g)));
    [simpl; intuition discriminate|].
  destruct (fst (fst (get_channel g (category_id g) names))) as [[category|]|x];
    try (simpl; intuition discriminate).
  destruct (negb (truthy (fetch_value e server_id))) eqn:Hinfo.
  { simpl. intros Hin. apply in_app_or in Hin as [Hin|Hin].
    - now apply fetch_trace_no_creation in Hin.
    - simpl in Hin. intuition discriminate. }
  destruct (add_details e (channel_format g) custom_name (fetch_value e server_id))
    as [[[[server_name players] max_players] channel_name]|x] eqn:Hdet.
  2:{ simpl. intros Hin. now apply fetch_trace_no_creation in Hin. }
  destruct (create_ok e category channel_name) as [id|]; simpl; intros Hin;
    (apply in_app_or in Hin as [Hin|Hin];
     [now apply fetch_trace_no_creation in Hin|]);
    simpl in Hin; destruct Hin as [Hin|[Hin|[]]]; try discriminate Hin.
  injection Hin as <- <- <-.
  intros Hg' Hne Ha Hstatus. injection Hg' as <-. simpl servers; simpl channel_format.
  exists (new_entry e author id server_name).
  split; [apply dict_lookup_set_same|].
  rewrite update_entry_normal. unfold entry_normal.
  assert (Hres : resolve
                   {| channels := channels g ∪ {[id]};
                      servers := dict_set server_id (new_entry e author id server_name)
                                   (servers g);
                      category_id := category_id g;
                      channel_format := channel_format g |}
                   (<[id := channel_name]> names) (new_entry e author id server_name)
                 = Ok (Some id)).
  { unfold resolve, new_entry. cbn [Py.get dict_get dict_lookup String.eqb Ascii.eqb Bool.eqb].
    cbn [truthy]. apply Z.eqb_neq in Hne. rewrite Hne. cbn [negb get_channel fst].
    unfold cached. cbn [channels].
    destruct (decide (id ∈ channels g ∪ {[id]})) as [_|Hnot]; [|exfalso; set_solver].
    now rewrite lookup_insert_eq. }
  rewrite Hres. apply negb_false_iff in Hinfo. rewrite Hinfo. cbn [negb].
  assert (Hname : desired_name e (channel_format g) (new_entry e author id server_name)
                    (fetch_value e server_id) = Ok channel_name).
  { unfold desired_name, format_channel_name. rewrite Ha. cbv [Py.get].
    rewrite Hstatus. cbn [eq_str String.eqb Ascii.eqb Bool.eqb].
    unfold new_entry. cbn [dict_get dict_lookup String.eqb Ascii.eqb Bool.eqb].
    pose proof (add_details_online _ _ _ _ _ _ _ _ _ Ha Hdet) as Hfmt.
    destruct (StrFormat.format (ext e) (channel_format g)
                (format_kwargs (dict_get a "players" (PInt 0))
                   (dict_get a "maxPlayers" (PInt 0)) server_name (PStr "online")));
      [exact Hfmt | discriminate]. }
  rewrite Hname, lookup_insert_eq. cbn [default]. now rewrite String.eqb_refl.
Qed.

Lemma added_channel_is_up_to_date_witness :
  let g := sample_guild default_format [] in
  let out := add_server sample_env g 7 "A" None sample_names in
  let g' := match fst (fst out) with Ok g1 => g1 | Raise _ => g end in
  exists server_data,
    dict_lookup "A" (servers g') = Some server_data /\
    update_entry sample_env g' (channel_format g') "A" server_data (snd (fst out))
    = (Ok tt, snd (fst out), fetch_trace sample_env "A" ++ [ESleep 2]).
Proof.
  intros g out g'.
  apply (added_channel_is_up_to_date sample_env g g' 7%Z "A" None sample_names
           1%Z 900%Z "[12/64] Alpha"
           [("name", PStr "Alpha"); ("players", PInt 12);
            ("maxPlayers", PInt 64); ("status", PStr "online")]).
  - vm_compute. right. left. reflexivity.
  - vm_compute. reflexivity.
  - discriminate.
  - vm_compute. reflexivity.
  - vm_compute. reflexivity.
Defined.

(** ** The settings commands *)

Lemma set_interval_floor (e : env) (seconds : Z) :
  (60 <= update_interval e)%Z ->
  (60 <= update_interval (fst (set_interval e seconds)))%Z.
Proof.
  intros H. unfold set_interval.
  destruct (Z.ltb_spec seconds 60); simpl; lia.
Qed.

(** X11: [setinterval] refuses an interval below 60 seconds and leaves
    the configuration as it was; so an interval that is at least 60
    seconds, as the default 300 is, stays so through any series of
    [setinterval] commands, and the loop then sleeps at least 60 seconds
    between two passes. *)
Theorem interval_never_below_floor :
  (forall (e : env) (seconds : Z),
      (seconds < 60)%Z -> set_interval e seconds = (e, [Said IntervalTooSmall])) /\
  (forall (e : env) (commands : list Z),
      (60 <= update_interval e)%Z ->
      (60 <= update_interval (set_intervals e commands))%Z) /\
  (forall (e : env) (commands : list Z) (guilds : list guild) (names : gmap Z string),
      (60 <= update_interval e)%Z ->
      exists names' t seconds,
        loop_turn (set_intervals e commands) guilds names
          = (Ok tt, names', t ++ [ESleep seconds]) /\
        (60 <= seconds)%Z).
Proof.
  assert (Hseq : forall (commands : list Z) (e : env),
             (60 <= update_interval e)%Z ->
             (60 <= update_interval (set_intervals e commands))%Z).
  { induction commands as [|s commands IH]; intros e He; [exact He|].
    unfold set_intervals. simpl. apply IH. now apply set_interval_floor. }
  split; [|split].
  - intros e seconds Hlow. unfold set_interval.
    apply Z.ltb_lt in Hlow. now rewrite Hlow.
  - intros e commands. apply Hseq.
  - intros e commands guilds names He.
    destruct (loop_turn_total (set_intervals e commands) guilds names)
      as (names' & t & Ht).
    exists names', t, (update_interval (set_intervals e commands)).
    split; [exact Ht | now apply Hseq].
Qed.

Lemma interval_never_below_floor_witness :
  set_interval sample_env 59 = (sample_env, [Said IntervalTooSmall]) /\
  (60 <= update_interval (set_intervals sample_env [30; 120; 5; 61; 0]))%Z.
Proof.
  split.
  - apply (proj1 interval_never_below_floor sample_env 59%Z). lia.
  - apply (proj1 (proj2 interval_never_below_floor) sample_env [30; 120; 5; 61; 0]%Z).
    simpl. lia.
Defined.

Lemma fetch_trace_auth (e : env) (server_id : string) :
  exists logs,
    fetch_trace e server_id
    = EGet server_id (match api_token e with
                      | Some t => if String.eqb t "" then None else Some t
                      | None => None
                      end) :: logs /\
    count is_request logs = 0.
Proof.
  unfold fetch_trace, _fetch_server_info, bind, emit, log, ret.
  destruct (http e server_id) as [| |status [data|]]; simpl.
  - eexists; split; reflexivity.
  - eexists; split; reflexivity.
  - destruct (Z.eqb status 200).
    + destruct (Py.get data "data" (PDict [])); simpl; eexists; split; reflexivity.
    + destruct (Z.eqb status 429); simpl; eexists; split; reflexivity.
  - destruct (Z.eqb status 200); [|destruct (Z.eqb status 429)]; simpl;
      eexists; split; reflexivity.
Qed.

(** X12: [settoken] stores the token whether or not Discord lets the
    message be deleted, and touches nothing else; from then on every
    fetch makes one request that carries the token, or no token when the
    stored text is empty. *)
Theorem stored_token_is_sent (w : world) (e : env) (token server_id : string)
    (names : gmap Z string) :
  let e' := fst (set_token w e token) in
  api_token e' = Some token /\
  update_interval e' = update_interval e /\
  http e' = http e /\
  exists logs,
    snd (_fetch_server_info e' server_id names)
    = EGet server_id (if String.eqb token "" then None else Some token) :: logs /\
    count is_request logs = 0.
Proof.
  intros e'. subst e'. simpl fst.
  split; [reflexivity|]. split; [reflexivity|]. split; [reflexivity|].
  rewrite fetch_run. simpl snd.
  exact (fetch_trace_auth (with_api_token (Some token) e) server_id).
Qed.

(** ** The [remove] command *)

Lemma dict_lookup_del_same (k : string) (d : list (string * pyval)) :
  dict_lookup k (dict_del k d) = None.
Proof.
  induction d as [|[k' v'] d IH]; simpl; [reflexivity|].
  destruct (String.eqb k k') eqn:Hk; simpl; [exact IH|].
  now rewrite Hk.
Qed.

Lemma dict_lookup_del_other (k k' : string) (d : list (string * pyval)) :
  k' <> k -> dict_lookup k' (dict_del k d) = dict_lookup k' d.
Proof.
  intros Hne. induction d as [|[k0 v0] d IH]; simpl; [reflexivity|].
  destruct (String.eqb_spec k k0) as [->|Hk]; simpl.
  - destruct (String.eqb_spec k' k0); [contradiction | exact IH].
  - destruct (String.eqb_spec k' k0); [reflexivity | exact IH].
Qed.

Lemma dict_del_set (k : string) (v : pyval) (d : list (string * pyval)) :
  dict_lookup k d = None -> dict_del k (dict_set k v d) = d.
Proof.
  induction d as [|[k' v'] d IH]; simpl.
  - now rewrite String.eqb_refl.
  - destruct (String.eqb k k') eqn:Hk; [discriminate|].
    intros H. simpl. now rewrite Hk, (IH H).
Qed.

(** X13: [remove] on an id that is not tracked changes nothing; when it
    ends normally no entry is left under that id, the other entries and
    settings are untouched, and the only channel that can disappear is
    one whose deletion Discord accepted; a deletion that Discord rejects
    does not keep the entry. *)
Theorem remove_forgets_the_entry :
  (forall (w : world) (g : guild) (server_id : string) (names : gmap Z string),
      dict_lookup server_id (servers g) = None ->
      remove_server w g server_id names = (Ok g, names, [Said NotTracked])) /\
  (forall (w : world) (g g' : guild) (server_id : string)
          (names names' : gmap Z string) (tr : list call),
      remove_server w g server_id names = (Ok g', names', tr) ->
      dict_lookup server_id (servers g') = None /\
      (forall k, k <> server_id ->
                 dict_lookup k (servers g') = dict_lookup k (servers g)) /\
      category_id g' = category_id g /\
      channel_format g' = channel_format g /\
      (forall z, names' !! z = names !! z \/
                 (names' !! z = None /\ In (DeleteChannel z true) tr))) /\
  (forall (w : world) (g : guild) (server_id : string) (names : gmap Z string)
          (server_data : pyval) (ch : Z),
      dict_lookup server_id (servers g) = Some server_data ->
      resolve g names server_data = Ok (Some ch) ->
      channel_delete_ok w ch = false ->
      exists name,
        remove_server w g server_id names
        = (Ok (forget g server_id None), names,
           [DeleteChannel ch false; Said (Removed name server_id)])).
Proof.
  split; [|split].
  - intros w g server_id names Hnone. unfold remove_server. now rewrite Hnone.
  - intros w g g' server_id names names' tr. unfold remove_server.
    destruct (dict_lookup server_id (servers g)) as [server_data|] eqn:Hlook.
    2:{ intros [= <- <- <-]. repeat split; auto. }
    destruct (Py.get server_data "channel_id" PNone) as [channel_id|x]; [|discriminate].
    destruct (Py.get server_data "name" (PStr "Unknown")) as [server_name|x];
      [|discriminate].
    assert (Hkeep : forall gone,
               dict_lookup server_id (servers (forget g server_id gone)) = None /\
               (forall k, k <> server_id ->
                          dict_lookup k (servers (forget g server_id gone))
                          = dict_lookup k (servers g)) /\
               category_id (forget g server_id gone) = category_id g /\
               channel_format (forget g server_id gone) = channel_format g).
    { intros gone. simpl. repeat split.
      - apply dict_lookup_del_same.
      - intros k Hk. now apply dict_lookup_del_other. }
    destruct (truthy channel_id).
    2:{ intros [= <- <- <-]. destruct (Hkeep None) as (? & ? & ? & ?).
        repeat split; auto. }
    destruct (get_channel g channel_id names) as [[[[channel|]|x] names1] tr1];
      [| |discriminate].
    2:{ intros [= <- <- <-]. destruct (Hkeep None) as (? & ? & ? & ?).
        repeat split; auto. }
    destruct (channel_delete_ok w channel).
    + intros [= <- <- <-]. destruct (Hkeep (Some channel)) as (? & ? & ? & ?).
      repeat split; auto.
      intros z. destruct (decide (channel = z)) as [<-|Hne].
      * right. split; [apply lookup_delete_eq | now left].
      * left. now apply lookup_delete_ne.
    + intros [= <- <- <-]. destruct (Hkeep None) as (? & ? & ? & ?).
      repeat split; auto.
  - intros w g server_id names server_data ch Hlook Hres Hrej.
    apply resolve_steps in Hres as (channel_id & Hid & Htruthy & Hget).
    unfold remove_server. rewrite Hlook, Hid.
    assert (Hname : exists name, Py.get server_data "name" (PStr "Unknown") = Ok name).
    { destruct server_data; try discriminate. eexists. reflexivity. }
    destruct Hname as [name Hname]. rewrite Hname, Htruthy, Hget, Hrej.
    now exists (str name).
Qed.

Lemma remove_forgets_the_entry_witness :
  let g := sample_guild default_format [("A", entry 10 "My Alpha"); ("B", entry 11 "Beta")] in
  remove_server sample_world g "Q" sample_names = (Ok g, sample_names, [Said NotTracked]) /\
  dict_lookup "A"
    (servers (match fst (fst (remove_server sample_world g "A" sample_names)) with
              | Ok g' => g'
              | Raise _ => g
              end)) = None.
Proof.
  intros g. split.
  - apply (proj1 remove_forgets_the_entry sample_world g "Q" sample_names). reflexivity.
  - apply (proj1 (proj1 (proj2 remove_forgets_the_entry) sample_world g
                    (match fst (fst (remove_server sample_world g "A" sample_names)) with
                     | Ok g' => g'
                     | Raise _ => g
                     end)
                    "A" sample_names
                    (snd (fst (remove_server sample_world g "A" sample_names)))
                    (snd (remove_server sample_world g "A" sample_names))
                    ltac:(vm_compute; reflexivity))).
Defined.

(** X14: [remove] undoes [add]: when [add] has tracked a new server in a
    channel that Discord created under a fresh, non-zero id, and Discord
    lets that channel be deleted, [remove] on the same id gives back the
    configuration and the channels as they were before [add]. *)
Theorem remove_undoes_add (w : world) (e : env) (g g1 : guild) (author : Z)
    (server_id : string) (custom_name : option string) (names : gmap Z string)
    (cat ch : Z) (nm : string) :
  let out := add_server e g author server_id custom_name names in
  In (ECreate cat nm (Some ch)) (snd out) ->
  fst (fst out) = Ok g1 ->
  dict_lookup server_id (servers g) = None ->
  names !! ch = None ->
  ch ∉ channels g ->
  ch <> 0%Z ->
  channel_delete_ok w ch = true ->
  exists name,
    remove_server w g1 server_id (snd (fst out))
    = (Ok g, names, [DeleteChannel ch true; Said (Removed name server_id)]).
Proof.
  intros out. subst out. rewrite add_server_normal. unfold add_normal.
  destruct (negb (truthy (category_id g)));
    [simpl; intuition discriminate|].
  destruct (fst (fst (get_channel g (category_id g) names))) as [[category|]|x];
    try (simpl; intuition discriminate).
  destruct (negb (truthy (fetch_value e server_id))).
  { simpl. intros Hin. apply in_app_or in Hin as [Hin|Hin].
    - now apply fetch_trace_no_creation in Hin.
    - simpl in Hin. intuition discriminate. }
  destruct (add_details e (channel_format g) custom_name (fetch_value e server_id))
    as [[[[server_name players] max_players] channel_name]|x].
  2:{ simpl. intros Hin. now apply fetch_trace_no_creation in Hin. }
  destruct (create_ok e category channel_name) as [id|]; simpl; intros Hin;
    (apply in_app_or in Hin as [Hin|Hin];
     [now apply fetch_trace_no_creation in Hin|]);
    simpl in Hin; destruct Hin as [Hin|[Hin|[]]]; try discriminate Hin.
  injection Hin as <- <- <-.
  intros Hg1 Hnew Hfresh Hnotin Hne Hdel. injection Hg1 as <-.
  exists (str server_name).
  unfold remove_server. cbn [servers]. rewrite dict_lookup_set_same.
  unfold new_entry. cbn [Py.get dict_get dict_lookup String.eqb Ascii.eqb Bool.eqb].
  cbn [truthy]. apply Z.eqb_neq in Hne. rewrite Hne. cbn [negb get_channel].
  unfold cached. cbn [channels].
  destruct (decide (id ∈ channels g ∪ {[id]})) as [_|Hnot]; [|exfalso; set_solver].
  rewrite lookup_insert_eq, Hdel.
  rewrite (delete_insert_id names id channel_name Hfresh).
  unfold forget. cbn [channels servers category_id channel_format].
  rewrite (dict_del_set _ _ _ Hnew).
  assert (Hset : (channels g ∪ {[id]}) ∖ {[id]} = channels g).
  { apply set_eq. intros z.
    rewrite elem_of_difference, elem_of_union, elem_of_singleton.
    split.
    - intros [[Hz|Hz] Hn]; [exact Hz | contradiction].
    - intros Hz. split; [now left | intros ->; contradiction]. }
  rewrite Hset. now destruct g.
Qed.

Lemma remove_undoes_add_witness :
  let g := sample_guild default_format [("A", entry 10 "My Alpha")] in
  let out := add_server sample_env g 7 "B" (Some "Mine") sample_names in
  let g1 := match fst (fst out) with Ok g' => g' | Raise _ => g end in
  exists name,
    remove_server sample_world g1 "B" (snd (fst out))
    = (Ok g, sample_names, [DeleteChannel 900 true; Said (Removed name "B")]).
Proof.
  intros g out g1.
  apply (remove_undoes_add sample_world sample_env g g1 7%Z "B" (Some "Mine")
           sample_names 1%Z 900%Z "[0/64] Mine").
  - vm_compute. right. left. reflexivity.
  - vm_compute. reflexivity.
  - reflexivity.
  - vm_compute. reflexivity.
  - vm_compute. intros H. discriminate H.
  - discriminate.
  - reflexivity.
Defined.

(** ** The [list] command *)

Lemma list_fields_length (g : guild) (names : gmap Z string)
    (items : list (string * pyval)) :
  forall fields,
    list_fields g names items = Ok fields ->
    List.length fields = List.length items.
Proof.
  induction items as [|[server_id data] items IH]; intros fields; simpl.
  - now intros [= <-].
  - destruct (list_field_of g names server_id data) as [f|x]; [|discriminate].
    destruct (list_fields g names items) as [fs|x]; [|discriminate].
    intros [= <-]. simpl. now rewrite (IH fs eq_refl).
Qed.

(** X15: [list] and the background pass agree on what a missing channel
    is: the field of an entry mentions no channel exactly when the pass
    skips the entry without fetching it, and mentions the channel that the
    pass fetches for otherwise; and [list] shows one field for each
    tracked server. *)
Theorem list_matches_the_pass :
  (forall (e : env) (g : guild) (names : gmap Z string) (template server_id : string)
          (data : pyval) (f : list_field),
      list_field_of g names server_id data = Ok f ->
      resolve g names data = Ok (lf_channel f) /\
      (lf_channel f = None ->
       update_entry e g template server_id data names = (Ok tt, names, [])) /\
      (forall ch, lf_channel f = Some ch ->
                  exists auth rest,
                    snd (update_entry e g template server_id data names)
                    = EGet server_id auth :: rest)) /\
  (forall (g : guild) (names : gmap Z string) (fields : list list_field),
      list_servers g names = (Ok tt, [Said (ServerList fields)]) ->
      List.length fields = List.length (servers g)).
Proof.
  split.
  - intros e g names template server_id data f Hfield.
    assert (Hres : resolve g names data = Ok (lf_channel f)).
    { unfold list_field_of in Hfield. unfold resolve.
      destruct (Py.get data "channel_id" PNone) as [channel_id|x]; [|discriminate].
      destruct (truthy channel_id); simpl negb; cbv iota.
      - destruct (fst (fst (get_channel g channel_id names))) as [channel|x];
          [|discriminate].
        destruct (Py.get data "name" (PStr "Unknown")); [|discriminate].
        injection Hfield as <-. reflexivity.
      - destruct (Py.get data "name" (PStr "Unknown")); [|discriminate].
        injection Hfield as <-. reflexivity. }
    split; [exact Hres|].
    rewrite update_entry_normal. unfold entry_normal. rewrite Hres.
    split.
    + intros ->. reflexivity.
    + intros ch ->.
      destruct (fetch_trace_cases e server_id) as (auth & logs & Htr & _).
      exists auth. rewrite Htr.
      destruct (negb (truthy (fetch_value e server_id))); [eexists; reflexivity|].
      destruct (desired_name e template data (fetch_value e server_id)) as [nm|x];
        [|eexists; reflexivity].
      destruct (String.eqb (default "" (names !! ch)) nm); [|destruct (edit_ok e ch nm)];
        eexists; reflexivity.
  - intros g names fields. unfold list_servers.
    destruct (servers g) as [|item items] eqn:Hs; [discriminate|].
    destruct (list_fields g names (item :: items)) as [fs|x] eqn:Hfs; [|discriminate].
    intros [= <-]. now apply list_fields_length in Hfs.
Qed.

Lemma list_matches_the_pass_witness :
  let g := sample_guild default_format [("Z", entry 99 "Gone"); ("A", entry 10 "My Alpha")] in
  resolve g sample_names (entry 99 "Gone") = Ok None /\
  List.length [ {| lf_name := "Gone"; lf_server_id := "Z"; lf_channel := None |};
                {| lf_name := "My Alpha"; lf_server_id := "A"; lf_channel := Some 10%Z |} ]
  = List.length (servers g).
Proof.
  intros g. split.
  - apply (proj1 (proj1 list_matches_the_pass sample_env g sample_names default_format
                    "Z" (entry 99 "Gone")
                    {| lf_name := "Gone"; lf_server_id := "Z"; lf_channel := None |}
                    ltac:(vm_compute; reflexivity))).
  - apply (proj2 list_matches_the_pass g sample_names). vm_compute. reflexivity.
Defined.

(** ** The [search] command *)

Lemma search_fields_length (title : string -> string) (found : list pyval) :
  forall fields,
    search_fields title found = Ok fields -> List.length fields = List.length found.
Proof.
  induction found as [|server found IH]; intros fields; simpl.
  - now intros [= <-].
  - destruct (search_field_of title server) as [f|x]; [|discriminate].
    destruct (search_fields title found) as [fs|x]; [|discriminate].
    intros [= <-]. simpl. now rewrite (IH fs eq_refl).
Qed.

Lemma search_fields_each (title : string -> string) (found : list pyval) :
  forall fields,
    search_fields title found = Ok fields ->
    Forall2 (fun server f => search_field_of title server = Ok f) found fields.
Proof.
  induction found as [|server found IH]; intros fields; simpl.
  - intros [= <-]. constructor.
  - destruct (search_field_of title server) as [f|x] eqn:Hf; [|discriminate].
    destruct (search_fields title found) as [fs|x]; [|discriminate].
    intros [= <-]. constructor; [exact Hf | now apply IH].
Qed.

Lemma search_field_parts (title : string -> string) (server : pyval) (f : search_field) :
  search_field_of title server = Ok f ->
  exists (sd attrs : list (string * pyval)) (status : string),
    server = PDict sd /\
    dict_get sd "attributes" (PDict []) = PDict attrs /\
    dict_get attrs "status" (PStr "unknown") = PStr status /\
    field_name (dict_get attrs "name" (PStr "Unknown")) = Ok (sf_name f) /\
    sf_server_id f = str (dict_get sd "id" (PStr "Unknown")) /\
    sf_players f = str (dict_get attrs "players" (PInt 0)) /\
    sf_max_players f = str (dict_get attrs "maxPlayers" (PInt 0)) /\
    sf_status f = title status.
Proof.
  unfold search_field_of.
  destruct server as [| | | | |sd]; try discriminate. cbv [Py.get].
  destruct (dict_get sd "attributes" (PDict [])) as [| | | | |attrs] eqn:Hattrs;
    try discriminate.
  destruct (field_name (dict_get attrs "name" (PStr "Unknown"))) as [shown|x] eqn:Hname;
    [|discriminate].
  destruct (dict_get attrs "status" (PStr "unknown")) as [| | |status| |] eqn:Hstatus;
    try discriminate.
  cbv [title_text]. intros [= <-].
  exists sd, attrs, status. cbn [sf_name sf_server_id sf_players sf_max_players sf_status].
  repeat split; auto.
Qed.

Lemma field_name_text (s : string) :
  field_name (PStr s) = Ok (slice_to 256 s) /\ String.length (slice_to 256 s) <= 256.
Proof.
  split; [reflexivity|]. rewrite slice_to_length. lia.
Qed.

(** X16: a search request that fails is answered, never raised: a status
    other than 200 gives the "failed" answer; a timeout, a failed
    request, and a 200 response whose body does not decode to a JSON
    object give the "error" answer; an object without results gives the
    "no servers" answer.  In each case the command makes the one request
    and sends the one answer. *)
Theorem search_failures_are_answered (w : world) (e : env) (query : string) :
  let auth := match api_token e with
              | Some t => if String.eqb t "" then None else Some t
              | None => None
              end in
    (search_http w query = TimedOut \/ search_http w query = Failed ->
     search_servers w e query = (Ok tt, [SearchGet query auth; Said SearchError])) /\
    (forall status json,
        search_http w query = Response status json -> status <> 200%Z ->
        search_servers w e query = (Ok tt, [SearchGet query auth; Said SearchFailed])) /\
    (search_http w query = Response 200 None ->
     search_servers w e query = (Ok tt, [SearchGet query auth; Said SearchError])) /\
    (forall data,
        search_http w query = Response 200 (Some data) -> (forall d, data <> PDict d) ->
        search_servers w e query = (Ok tt, [SearchGet query auth; Said SearchError])) /\
    (forall d,
        search_http w query = Response 200 (Some (PDict d)) ->
        truthy (dict_get d "data" (PList [])) = false ->
        search_servers w e query = (Ok tt, [SearchGet query auth; Said NoServersFound])).
Proof.
  intros auth. subst auth. unfold search_servers. repeat split.
  - intros [->| ->]; reflexivity.
  - intros status json -> Hne. apply Z.eqb_neq in Hne. now rewrite Hne.
  - now intros ->.
  - intros data -> Hnot. simpl.
    destruct data; try reflexivity. now destruct (Hnot d).
  - intros d -> Hempty. simpl. now rewrite Hempty.
Qed.

Lemma search_failures_are_answered_witness :
  search_servers sample_world sample_env "down"
  = (Ok tt, [SearchGet "down" None; Said SearchFailed]).
Proof.
  destruct (search_failures_are_answered sample_world sample_env "down")
    as (_ & Hstatus & _).
  apply (Hstatus 503%Z None eq_refl). discriminate.
Defined.

Lemma first_length (A : Type) (n : nat) (l : list A) :
  List.length (firstn n l) = Nat.min n (List.length l).
Proof.
  revert l; induction n as [|n IH]; intros [|x l]; simpl; try reflexivity.
  now rewrite IH.
Qed.

(** X17: when the API returns a list of results, [search] makes its one
    request and sends one embed with one field for each of the first ten
    results at most, in the order of the API.  Each field is read from its
    result: its name is the first 256 characters of the name of the server
    (["Unknown"] when the result has none), and its value shows the id,
    the two counts and the status in title case, each with the default of
    the code when the result lacks it. *)
Theorem search_shows_at_most_ten (w : world) (e : env) (query : string)
    (d : list (string * pyval)) (found : list pyval) (tr : list call) :
  search_http w query = Response 200 (Some (PDict d)) ->
  dict_get d "data" (PList []) = PList found ->
  found <> [] ->
  search_servers w e query = (Ok tt, tr) ->
  let auth := match api_token e with
              | Some t => if String.eqb t "" then None else Some t
              | None => None
              end in
  exists fields,
    tr = [SearchGet query auth; Said (SearchResults query fields)] /\
    search_fields (str_title w) (firstn 10 found) = Ok fields /\
    List.length fields = Nat.min 10 (List.length found) /\
    Forall2
      (fun server f =>
         exists (sd attrs : list (string * pyval)) (status : string),
           server = PDict sd /\
           dict_get sd "attributes" (PDict []) = PDict attrs /\
           dict_get attrs "status" (PStr "unknown") = PStr status /\
           field_name (dict_get attrs "name" (PStr "Unknown")) = Ok (sf_name f) /\
           (forall s, dict_get attrs "name" (PStr "Unknown") = PStr s ->
                      sf_name f = slice_to 256 s /\ String.length (sf_name f) <= 256) /\
           sf_server_id f = str (dict_get sd "id" (PStr "Unknown")) /\
           sf_players f = str (dict_get attrs "players" (PInt 0)) /\
           sf_max_players f = str (dict_get attrs "maxPlayers" (PInt 0)) /\
           sf_status f = str_title w status)
      (firstn 10 found) fields.
Proof.
  intros Hhttp Hdata Hne. unfold search_servers. rewrite Hhttp. simpl.
  rewrite Hdata. destruct found as [|server found]; [contradiction|].
  cbn [truthy negb first_ten].
  destruct (search_fields (str_title w) (firstn 10 (server :: found)))
    as [fields|x] eqn:Hfields; [|discriminate].
  intros [= <-]. exists fields. split; [reflexivity|].
  split; [reflexivity|]. split.
  - rewrite (search_fields_length _ _ _ Hfields). apply first_length.
  - apply search_fields_each in Hfields.
    induction Hfields as [|item f items fs Hf _ IH]; constructor; [|exact IH].
    apply search_field_parts in Hf
      as (sd & attrs & status & Hsd & Hattrs & Hstatus & Hname & Hid & Hp & Hm & Hst).
    exists sd, attrs, status.
    split; [exact Hsd|]. split; [exact Hattrs|]. split; [exact Hstatus|].
    split; [exact Hname|]. split; [|auto].
    intros s Hs. rewrite Hs in Hname.
    destruct (field_name_text s) as [Htext Hlen].
    assert (Heq : sf_name f = slice_to 256 s) by congruence.
    rewrite Heq. split; [reflexivity | exact Hlen].
Qed.

Lemma search_shows_at_most_ten_witness :
  let alpha := PDict [("id", PStr "A");
                      ("attributes", PDict [("name", PStr "Alpha");
                                            ("players", PInt 12);
                                            ("maxPlayers", PInt 64);
                                            ("status", PStr "online")])] in
  exists fields,
    snd (search_servers sample_world sample_env "squad")
    = [SearchGet "squad" None; Said (SearchResults "squad" fields)] /\
    List.length fields = 1 /\
    Forall2 (fun (server : pyval) f =>
               sf_name f = "Alpha" /\ sf_server_id f = "A" /\ sf_players f = "12" /\
               sf_max_players f = "64" /\ sf_status f = "Online")
            [alpha] fields.
Proof.
  intros alpha.
  destruct (search_shows_at_most_ten sample_world sample_env "squad"
              [("data", PList [alpha])] [alpha]
              (snd (search_servers sample_world sample_env "squad")))
    as (fields & Htr & _ & Hlen & Hall).
  - reflexivity.
  - reflexivity.
  - discriminate.
  - vm_compute. reflexivity.
  - exists fields. split; [exact Htr|]. split; [exact Hlen|].
    cbn [firstn] in Hall.
    inversion Hall as [|server f l fs Hf Hrest]; subst.
    inversion Hrest; subst. constructor; [|constructor].
    destruct Hf as (sd & attrs & status & Hsd & Hattrs & Hstatus & _ & Hname
                    & Hid & Hp & Hm & Hst).
    injection Hsd as <-.
    vm_compute in Hattrs. injection Hattrs as <-.
    vm_compute in Hstatus. injection Hstatus as <-.
    destruct (Hname "Alpha" eq_refl) as [Hn _].
    rewrite Hn, Hid, Hp, Hm, Hst. vm_compute. repeat split; reflexivity.
Defined.

(** ** Settings and the [add] command *)

(** X18: once [setcategory] has stored a category that exists in the
    guild, [add] passes its two checks on the category and goes on to
    fetch the server; [setcategory] leaves the tracked servers and the
    template as they were. *)
Theorem category_enables_add (e : env) (g : guild) (category author : Z)
    (server_id : string) (custom_name : option string) (names : gmap Z string) :
  let g1 := fst (set_category g category names) in
  category <> 0%Z ->
  category ∈ channels g ->
  is_Some (names !! category) ->
  servers g1 = servers g /\
  channel_format g1 = channel_format g /\
  exists rest,
    snd (add_server e g1 author server_id custom_name names)
    = fetch_trace e server_id ++ rest.
Proof.
  intros g1 Hne Hin [nm Hnm]. subst g1. cbn [set_category fst].
  split; [reflexivity|]. split; [reflexivity|].
  rewrite add_server_normal. unfold add_normal. cbn [category_id truthy].
  apply Z.eqb_neq in Hne. rewrite Hne. cbn [negb get_channel fst].
  unfold cached. cbn [channels].
  destruct (decide (category ∈ channels g)) as [_|Hnot]; [|contradiction].
  rewrite Hnm.
  destruct (negb (truthy (fetch_value e server_id))); [eexists; reflexivity|].
  cbn [channel_format].
  destruct (add_details e (channel_format g) custom_name (fetch_value e server_id))
    as [[[[server_name players] max_players] channel_name]|x].
  - destruct (create_ok e category channel_name); eexists; reflexivity.
  - exists []. now rewrite app_nil_r.
Qed.

Lemma category_enables_add_witness :
  let g := {| channels := {[ 1%Z; 10%Z ]}; servers := [];
              category_id := PNone; channel_format := default_format |} in
  exists rest,
    snd (add_server sample_env (fst (set_category g 1 sample_names)) 7 "A" None
           sample_names)
    = fetch_trace sample_env "A" ++ rest.
Proof.
  intros g.
  destruct (category_enables_add sample_env g 1%Z 7%Z "A" None sample_names)
    as (_ & _ & Hrest).
  - discriminate.
  - vm_compute. reflexivity.
  - vm_compute. eexists. reflexivity.
  - exact Hrest.
Defined.


